(** * Community master server: session registry (src/server/master_server.py)

    A shallow embedding of the in-memory session registry of the DRL
    community master server, its request handlers and its stale-session
    sweep, followed by the properties of the registry.

    Conventions of the embedding.

    - Request bodies are JSON objects: a [gmap string value].  A [value] is
      [None], a bool, an int or a str; JSON arrays, nested objects and
      non-integer numbers are not represented.  A str is the sequence of
      its bytes; the strings the server slices and strips are ASCII.
    - Python is dynamically typed, so every session field that receives a
      request field verbatim holds a [value]; operations on such fields
      ([>=], [+= 1], [min], subscripting, [.encode()]) raise as Python
      does, and a raising method keeps the mutations made before the raise.
    - [self.sessions] is a Python dict: an association list in insertion
      order, with the dict's get / set / pop.
    - What the process cannot decide by itself is an argument of the
      operation that reads it: the id drawn from [uuid.uuid4()], every
      reading of [datetime.utcnow()] (microseconds since the epoch), the
      peer address and the forwarding header of a request.
    - [hashlib.sha256(..).hexdigest()] is a function on strings taken as a
      parameter.
    - [asyncio.create_task(c)] appends [c] to the event loop's tasks; the
      coroutine body runs only when the loop later steps the task. *)

From stdpp Require Import gmap strings list.
From Stdlib Require Import ZArith Ascii DecimalString Sorted.

(** ** Python values and the primitives the server applies to them *)

Inductive value : Type :=
  | VNone
  | VBool (b : bool)
  | VInt (n : Z)
  | VStr (s : string).

#[global] Instance value_eq_dec : EqDecision value.
Proof. solve_decision. Defined.

Inductive exn : Type :=
  | KeyError (k : string)
  | TypeError
  | AttributeError
  | ConnectionError.

Inductive res (A : Type) : Type :=
  | Ok (a : A)
  | Raise (e : exn).
Arguments Ok {A} a.
Arguments Raise {A} e.

(** [bool(v)] *)
Definition truthy (v : value) : bool :=
  match v with
  | VNone => false
  | VBool b => b
  | VInt n => negb (n =? 0)%Z
  | VStr s => negb (String.eqb s "")
  end.

(** [bool] is a subclass of [int]: both take part in arithmetic and
    ordering. *)
Definition as_num (v : value) : option Z :=
  match v with
  | VBool b => Some (if b then 1 else 0)%Z
  | VInt n => Some n
  | _ => None
  end.

(** [a < b] *)
Definition py_lt (a b : value) : res bool :=
  match as_num a, as_num b with
  | Some x, Some y => Ok (x <? y)%Z
  | _, _ =>
      match a, b with
      | VStr s, VStr t => Ok (String.ltb s t)
      | _, _ => Raise TypeError
      end
  end.

(** [a >= b] *)
Definition py_ge (a b : value) : res bool :=
  match as_num a, as_num b with
  | Some x, Some y => Ok (y <=? x)%Z
  | _, _ =>
      match a, b with
      | VStr s, VStr t => Ok (String.leb t s)
      | _, _ => Raise TypeError
      end
  end.

(** [min(a, b)]: the first argument is kept unless the second is
    strictly smaller. *)
Definition py_min (a b : value) : res value :=
  match py_lt b a with
  | Ok true => Ok b
  | Ok false => Ok a
  | Raise e => Raise e
  end.

(** [v + 1] and [v - 1], as [+=] and [-=] compute them *)
Definition py_add1 (v : value) : res value :=
  match as_num v with
  | Some x => Ok (VInt (x + 1))
  | None => Raise TypeError
  end.

Definition py_sub1 (v : value) : res value :=
  match as_num v with
  | Some x => Ok (VInt (x - 1))
  | None => Raise TypeError
  end.

(** [s == v] for a str [s] *)
Definition str_eq_value (s : string) (v : value) : bool :=
  match v with
  | VStr t => String.eqb s t
  | _ => false
  end.

(** [format(v)] inside an f-string *)
Definition py_str (v : value) : string :=
  match v with
  | VNone => "None"
  | VBool true => "True"
  | VBool false => "False"
  | VInt n => NilZero.string_of_int (Z.to_int n)
  | VStr s => s
  end.

(** [s[-6:]] *)
Definition last6 (s : string) : string :=
  String.substring (String.length s - 6) 6 s.

(** [s.split(',')[0]] *)
Fixpoint before_comma (s : string) : string :=
  match s with
  | EmptyString => EmptyString
  | String c s' => if Ascii.eqb c ","%char then EmptyString else String c (before_comma s')
  end.

(** The ASCII characters that [str.strip()] removes (code points 9-13 and
    28-32); whitespace outside ASCII is not modelled. *)
Definition is_space (c : Ascii.ascii) : bool :=
  let n := Ascii.nat_of_ascii c in
  ((9 <=? n) && (n <=? 13)) || ((28 <=? n) && (n <=? 32)).

Fixpoint lstrip (s : string) : string :=
  match s with
  | EmptyString => EmptyString
  | String c s' => if is_space c then lstrip s' else s
  end.

Fixpoint rstrip (s : string) : string :=
  match s with
  | EmptyString => EmptyString
  | String c s' =>
      let r := rstrip s' in
      if is_space c && String.eqb r "" then EmptyString else String c r
  end.

Definition strip (s : string) : string := rstrip (lstrip s).

(** [data.get(k, dflt)] and [data[k]] on a request body *)
Definition dget (data : gmap string value) (k : string) (dflt : value) : value :=
  default dflt (data !! k).

Definition subscript (data : gmap string value) (k : string) : res value :=
  match data !! k with
  | Some v => Ok v
  | None => Raise (KeyError k)
  end.

(** ** Python dict, insertion ordered *)

Section dict.
Context {V : Type}.

Fixpoint dict_get (k : string) (d : list (string * V)) : option V :=
  match d with
  | [] => None
  | (k', v) :: d' => if String.eqb k k' then Some v else dict_get k d'
  end.

(** [d[k] = v]: an existing key keeps its position *)
Fixpoint dict_set (k : string) (v : V) (d : list (string * V)) : list (string * V) :=
  match d with
  | [] => [(k, v)]
  | (k', v') :: d' =>
      if String.eqb k k' then (k', v) :: d' else (k', v') :: dict_set k v d'
  end.

(** [d.pop(k)] *)
Fixpoint dict_pop (k : string) (d : list (string * V)) : list (string * V) :=
  match d with
  | [] => []
  | (k', v') :: d' =>
      if String.eqb k k' then d' else (k', v') :: dict_pop k d'
  end.

(** In-place mutation of the object stored under [k] *)
Fixpoint dict_mutate (k : string) (f : V → V) (d : list (string * V)) : list (string * V) :=
  match d with
  | [] => []
  | (k', v') :: d' =>
      if String.eqb k k' then (k', f v') :: d' else (k', v') :: dict_mutate k f d'
  end.

Definition dict_keys (d : list (string * V)) : list string := d.*1.
End dict.


(** ** The data model *)

Record Player : Type := mkPlayer {
  steam_id : string;
  name : value;
  avatar_url : value;
  is_host : bool;
  is_spectator : value;
  joined_at : Z
}.

(** [GameSession].  [host_steam_id] is a str in every session the manager
    builds, because [create_session] slices it; [password_hash] is the
    empty string or a digest; the two timestamps are written by the server
    only, as ISO strings whose order is the order of the instants they
    denote. *)
Record GameSession : Type := mkSession {
  session_id : string;
  host_steam_id : string;
  host_name : value;
  host_avatar_url : value;
  host_ip : value;
  host_port : value;
  room_name : value;
  map_id : value;
  track_id : value;
  is_custom_track : value;
  game_mode : value;
  max_pilots : value;
  max_spectators : value;
  current_pilots : value;
  current_spectators : value;
  laps : value;
  physics_mode : value;
  allow_track_download : value;
  password_hash : string;
  status : value;
  created_at : Z;
  last_heartbeat : Z;
  players : list Player
}.

#[global] Instance Player_eq_dec : EqDecision Player.
Proof. solve_decision. Defined.
#[global] Instance GameSession_eq_dec : EqDecision GameSession.
Proof. solve_decision. Defined.

(** Attribute assignment, one function per attribute the server assigns *)

Definition set_status (x : value) (s : GameSession) : GameSession :=
  {| session_id := session_id s; host_steam_id := host_steam_id s;
     host_name := host_name s; host_avatar_url := host_avatar_url s;
     host_ip := host_ip s; host_port := host_port s; room_name := room_name s;
     map_id := map_id s; track_id := track_id s; is_custom_track := is_custom_track s;
     game_mode := game_mode s; max_pilots := max_pilots s;
     max_spectators := max_spectators s; current_pilots := current_pilots s;
     current_spectators := current_spectators s; laps := laps s;
     physics_mode := physics_mode s; allow_track_download := allow_track_download s;
     password_hash := password_hash s; status := x; created_at := created_at s;
     last_heartbeat := last_heartbeat s; players := players s |}.

Definition set_current_pilots (x : value) (s : GameSession) : GameSession :=
  {| session_id := session_id s; host_steam_id := host_steam_id s;
     host_name := host_name s; host_avatar_url := host_avatar_url s;
     host_ip := host_ip s; host_port := host_port s; room_name := room_name s;
     map_id := map_id s; track_id := track_id s; is_custom_track := is_custom_track s;
     game_mode := game_mode s; max_pilots := max_pilots s;
     max_spectators := max_spectators s; current_pilots := x;
     current_spectators := current_spectators s; laps := laps s;
     physics_mode := physics_mode s; allow_track_download := allow_track_download s;
     password_hash := password_hash s; status := status s; created_at := created_at s;
     last_heartbeat := last_heartbeat s; players := players s |}.

Definition set_current_spectators (x : value) (s : GameSession) : GameSession :=
  {| session_id := session_id s; host_steam_id := host_steam_id s;
     host_name := host_name s; host_avatar_url := host_avatar_url s;
     host_ip := host_ip s; host_port := host_port s; room_name := room_name s;
     map_id := map_id s; track_id := track_id s; is_custom_track := is_custom_track s;
     game_mode := game_mode s; max_pilots := max_pilots s;
     max_spectators := max_spectators s; current_pilots := current_pilots s;
     current_spectators := x; laps := laps s; physics_mode := physics_mode s;
     allow_track_download := allow_track_download s; password_hash := password_hash s;
     status := status s; created_at := created_at s;
     last_heartbeat := last_heartbeat s; players := players s |}.

Definition set_map_id (x : value) (s : GameSession) : GameSession :=
  {| session_id := session_id s; host_steam_id := host_steam_id s;
     host_name := host_name s; host_avatar_url := host_avatar_url s;
     host_ip := host_ip s; host_port := host_port s; room_name := room_name s;
     map_id := x; track_id := track_id s; is_custom_track := is_custom_track s;
     game_mode := game_mode s; max_pilots := max_pilots s;
     max_spectators := max_spectators s; current_pilots := current_pilots s;
     current_spectators := current_spectators s; laps := laps s;
     physics_mode := physics_mode s; allow_track_download := allow_track_download s;
     password_hash := password_hash s; status := status s; created_at := created_at s;
     last_heartbeat := last_heartbeat s; players := players s |}.

Definition set_track_id (x : value) (s : GameSession) : GameSession :=
  {| session_id := session_id s; host_steam_id := host_steam_id s;
     host_name := host_name s; host_avatar_url := host_avatar_url s;
     host_ip := host_ip s; host_port := host_port s; room_name := room_name s;
     map_id := map_id s; track_id := x; is_custom_track := is_custom_track s;
     game_mode := game_mode s; max_pilots := max_pilots s;
     max_spectators := max_spectators s; current_pilots := current_pilots s;
     current_spectators := current_spectators s; laps := laps s;
     physics_mode := physics_mode s; allow_track_download := allow_track_download s;
     password_hash := password_hash s; status := status s; created_at := created_at s;
     last_heartbeat := last_heartbeat s; players := players s |}.

Definition set_is_custom_track (x : value) (s : GameSession) : GameSession :=
  {| session_id := session_id s; host_steam_id := host_steam_id s;
     host_name := host_name s; host_avatar_url := host_avatar_url s;
     host_ip := host_ip s; host_port := host_port s; room_name := room_name s;
     map_id := map_id s; track_id := track_id s; is_custom_track := x;
     game_mode := game_mode s; max_pilots := max_pilots s;
     max_spectators := max_spectators s; current_pilots := current_pilots s;
     current_spectators := current_spectators s; laps := laps s;
     physics_mode := physics_mode s; allow_track_download := allow_track_download s;
     password_hash := password_hash s; status := status s; created_at := created_at s;
     last_heartbeat := last_heartbeat s; players := players s |}.

Definition set_laps (x : value) (s : GameSession) : GameSession :=
  {| session_id := session_id s; host_steam_id := host_steam_id s;
     host_name := host_name s; host_avatar_url := host_avatar_url s;
     host_ip := host_ip s; host_port := host_port s; room_name := room_name s;
     map_id := map_id s; track_id := track_id s; is_custom_track := is_custom_track s;
     game_mode := game_mode s; max_pilots := max_pilots s;
     max_spectators := max_spectators s; current_pilots := current_pilots s;
     current_spectators := current_spectators s; laps := x;
     physics_mode := physics_mode s; allow_track_download := allow_track_download s;
     password_hash := password_hash s; status := status s; created_at := created_at s;
     last_heartbeat := last_heartbeat s; players := players s |}.

Definition set_room_name (x : value) (s : GameSession) : GameSession :=
  {| session_id := session_id s; host_steam_id := host_steam_id s;
     host_name := host_name s; host_avatar_url := host_avatar_url s;
     host_ip := host_ip s; host_port := host_port s; room_name := x;
     map_id := map_id s; track_id := track_id s; is_custom_track := is_custom_track s;
     game_mode := game_mode s; max_pilots := max_pilots s;
     max_spectators := max_spectators s; current_pilots := current_pilots s;
     current_spectators := current_spectators s; laps := laps s;
     physics_mode := physics_mode s; allow_track_download := allow_track_download s;
     password_hash := password_hash s; status := status s; created_at := created_at s;
     last_heartbeat := last_heartbeat s; players := players s |}.

Definition set_password_hash (x : string) (s : GameSession) : GameSession :=
  {| session_id := session_id s; host_steam_id := host_steam_id s;
     host_name := host_name s; host_avatar_url := host_avatar_url s;
     host_ip := host_ip s; host_port := host_port s; room_name := room_name s;
     map_id := map_id s; track_id := track_id s; is_custom_track := is_custom_track s;
     game_mode := game_mode s; max_pilots := max_pilots s;
     max_spectators := max_spectators s; current_pilots := current_pilots s;
     current_spectators := current_spectators s; laps := laps s;
     physics_mode := physics_mode s; allow_track_download := allow_track_download s;
     password_hash := x; status := status s; created_at := created_at s;
     last_heartbeat := last_heartbeat s; players := players s |}.

Definition set_last_heartbeat (x : Z) (s : GameSession) : GameSession :=
  {| session_id := session_id s; host_steam_id := host_steam_id s;
     host_name := host_name s; host_avatar_url := host_avatar_url s;
     host_ip := host_ip s; host_port := host_port s; room_name := room_name s;
     map_id := map_id s; track_id := track_id s; is_custom_track := is_custom_track s;
     game_mode := game_mode s; max_pilots := max_pilots s;
     max_spectators := max_spectators s; current_pilots := current_pilots s;
     current_spectators := current_spectators s; laps := laps s;
     physics_mode := physics_mode s; allow_track_download := allow_track_download s;
     password_hash := password_hash s; status := status s; created_at := created_at s;
     last_heartbeat := x; players := players s |}.

Definition set_players (x : list Player) (s : GameSession) : GameSession :=
  {| session_id := session_id s; host_steam_id := host_steam_id s;
     host_name := host_name s; host_avatar_url := host_avatar_url s;
     host_ip := host_ip s; host_port := host_port s; room_name := room_name s;
     map_id := map_id s; track_id := track_id s; is_custom_track := is_custom_track s;
     game_mode := game_mode s; max_pilots := max_pilots s;
     max_spectators := max_spectators s; current_pilots := current_pilots s;
     current_spectators := current_spectators s; laps := laps s;
     physics_mode := physics_mode s; allow_track_download := allow_track_download s;
     password_hash := password_hash s; status := status s; created_at := created_at s;
     last_heartbeat := last_heartbeat s; players := x |}.

(** [setattr(session, field, v)] for the attribute names of [updateable] *)
Definition setattr (field : string) (v : value) (s : GameSession) : GameSession :=
  if String.eqb field "status" then set_status v s
  else if String.eqb field "current_pilots" then set_current_pilots v s
  else if String.eqb field "current_spectators" then set_current_spectators v s
  else if String.eqb field "map_id" then set_map_id v s
  else if String.eqb field "track_id" then set_track_id v s
  else if String.eqb field "is_custom_track" then set_is_custom_track v s
  else if String.eqb field "laps" then set_laps v s
  else if String.eqb field "room_name" then set_room_name v s
  else s.

Definition is_full (s : GameSession) : res bool :=
  py_ge (current_pilots s) (max_pilots s).

Definition is_spectator_full (s : GameSession) : res bool :=
  py_ge (current_spectators s) (max_spectators s).

(** [to_dict]: [asdict(self)] with the key [password_hash] deleted (the
    field is blanked here) and [has_password] added.  [asdict] copies, so
    the result is a snapshot. *)
Record session_dict : Type := mkDict {
  d_fields : GameSession;
  has_password : bool
}.

Definition to_dict (s : GameSession) : session_dict :=
  {| d_fields := set_password_hash "" s;
     has_password := negb (String.eqb (password_hash s) "") |}.

(** ** Events, the event loop and the process state *)

Inductive payload : Type :=
  | PInitial (ds : list session_dict)
  | PSession (d : session_dict)
  | PSessionId (sid : string)
  | PPlayerJoined (sid : string) (p : Player)
  | PPlayerLeft (sid : string) (steam : value).

(** The arguments of one [broadcast_update(event_type, data)] call *)
Record event : Type := mkEvent {
  event_type : string;
  event_data : payload
}.

(** The message [broadcast_update] serialises *)
Record envelope : Type := mkEnvelope {
  env_type : string;
  env_data : payload;
  env_timestamp : Z
}.

(** The [SessionManager] fields, the broadcast coroutines handed to
    [asyncio.create_task] and not yet run (oldest first), and what
    [send_str] has written to each socket (oldest first). *)
Record world : Type := mkWorld {
  sessions : list (string * GameSession);
  session_timeout : Z;
  websockets : gset nat;
  loop_tasks : list event;
  wire : list (nat * envelope)
}.

Definition set_sessions (x : list (string * GameSession)) (w : world) : world :=
  {| sessions := x; session_timeout := session_timeout w; websockets := websockets w;
     loop_tasks := loop_tasks w; wire := wire w |}.

Definition set_loop_tasks (x : list event) (w : world) : world :=
  {| sessions := sessions w; session_timeout := session_timeout w;
     websockets := websockets w; loop_tasks := x; wire := wire w |}.

Definition set_sockets (ws : gset nat) (out : list (nat * envelope)) (w : world) : world :=
  {| sessions := sessions w; session_timeout := session_timeout w; websockets := ws;
     loop_tasks := loop_tasks w; wire := out |}.

(** [SessionManager()] at start-up *)
Definition init : world :=
  {| sessions := []; session_timeout := 120; websockets := ∅; loop_tasks := []; wire := [] |}.

(** ** Computations: state passing with exceptions

    A raised exception ends the computation; the state reached so far
    stays. *)

Definition M (A : Type) : Type := world → res A * world.

#[global] Instance M_ret : MRet M := λ A a w, (Ok a, w).

#[global] Instance M_bind : MBind M := λ A B k m w,
  match m w with
  | (Ok a, w') => k a w'
  | (Raise e, w') => (Raise e, w')
  end.

Definition ret {A} (a : A) : M A := mret a.

Definition lift {A} (r : res A) : M A := λ w, (r, w).

Definition modify (f : world → world) : M unit := λ w, (Ok tt, f w).

(** [for x in xs: body(x)] *)
Fixpoint for_each {A} (xs : list A) (body : A → M unit) : M unit :=
  match xs with
  | [] => ret tt
  | x :: xs' => body x ;; for_each xs' body
  end.

Definition create_task (ty : string) (data : payload) : M unit :=
  modify (λ w, set_loop_tasks (loop_tasks w ++ [mkEvent ty data]) w).

(** Mutation of the session object the dict holds under [sid] *)
Definition mutate (sid : string) (f : GameSession → GameSession) : M unit :=
  modify (λ w, set_sessions (dict_mutate sid f (sessions w)) w).

(** The first player whose [steam_id] equals [sid], and the list after
    [pop] at its index *)
Fixpoint pop_first (sid : value) (ps : list Player) : option (Player * list Player) :=
  match ps with
  | [] => None
  | p :: ps' =>
      if str_eq_value (steam_id p) sid then Some (p, ps')
      else match pop_first sid ps' with
           | Some (r, rest) => Some (r, p :: rest)
           | None => None
           end
  end.

(** ** SessionManager *)

Module SessionManager.

(** [uuid8] is [str(uuid.uuid4())[:8]]; [t_created], [t_heartbeat] and
    [t_joined] are the clock readings of the three default factories. *)
Definition create_session (sha256_hex : string → string) (uuid8 : string)
    (t_created t_heartbeat t_joined : Z) (data : gmap string value) : M GameSession :=
  hid ← lift (subscript data "host_steam_id");
  h ← lift (match hid with VStr h => Ok h | _ => Raise TypeError end);
  mp ← lift (py_min (dget data "max_pilots" (VInt 6)) (VInt 6));
  ms ← lift (py_min (dget data "max_spectators" (VInt 15)) (VInt 15));
  let session :=
    {| session_id := uuid8;
       host_steam_id := h;
       host_name := dget data "host_name" (VStr ("Player_" +:+ last6 h));
       host_avatar_url := dget data "host_avatar_url" (VStr "");
       host_ip := dget data "host_ip" (VStr "0.0.0.0");
       host_port := dget data "host_port" (VInt 5056);
       room_name :=
         dget data "room_name"
           (VStr (py_str (dget data "host_name" (VStr "Unknown")) +:+ "'s Room"));
       map_id := dget data "map_id" (VStr "MP-3fd");
       track_id := dget data "track_id" (VStr "");
       is_custom_track := dget data "is_custom_track" (VBool false);
       game_mode := dget data "game_mode" (VStr "race");
       max_pilots := mp;
       max_spectators := ms;
       current_pilots := VInt 1;
       current_spectators := VInt 0;
       laps := dget data "laps" (VInt 3);
       physics_mode := dget data "physics_mode" (VStr "sim");
       allow_track_download := dget data "allow_track_download" (VBool true);
       password_hash := "";
       status := VStr "lobby";
       created_at := t_created;
       last_heartbeat := t_heartbeat;
       players := [] |} in
  session ←
    (if truthy (dget data "password" VNone) then
       match dget data "password" VNone with
       | VStr p => ret (set_password_hash (sha256_hex p) session)
       | _ => lift (Raise AttributeError)
       end
     else ret session);
  let host_player :=
    {| steam_id := host_steam_id session;
       name := host_name session;
       avatar_url := host_avatar_url session;
       is_host := true;
       is_spectator := VBool false;
       joined_at := t_joined |} in
  let session := set_players (players session ++ [host_player]) session in
  modify (λ w, set_sessions (dict_set uuid8 session (sessions w)) w) ;;
  create_task "session_created" (PSession (to_dict session)) ;;
  ret session.

Definition get_session (sid : string) : M (option GameSession) :=
  λ w, (Ok (dict_get sid (sessions w)), w).

Definition updateable : list string :=
  ["status"; "current_pilots"; "current_spectators"; "map_id";
   "track_id"; "is_custom_track"; "laps"; "room_name"].

Definition update_session (sid : string) (now : Z) (data : gmap string value)
    : M (option GameSession) :=
  o ← get_session sid;
  match o with
  | None => ret None
  | Some _ =>
      for_each updateable (λ field,
        match data !! field with
        | Some v => mutate sid (setattr field v)
        | None => ret tt
        end) ;;
      mutate sid (set_last_heartbeat now) ;;
      o' ← get_session sid;
      match o' with
      | None => ret None
      | Some session =>
          create_task "session_updated" (PSession (to_dict session)) ;;
          ret (Some session)
      end
  end.

Definition heartbeat (sid : string) (now : Z) : M bool :=
  o ← get_session sid;
  match o with
  | Some _ => mutate sid (set_last_heartbeat now) ;; ret true
  | None => ret false
  end.

Definition delete_session (sid : string) : M bool :=
  o ← get_session sid;
  match o with
  | Some _ =>
      modify (λ w, set_sessions (dict_pop sid (sessions w)) w) ;;
      create_task "session_deleted" (PSessionId sid) ;;
      ret true
  | None => ret false
  end.

Definition add_player (sid : string) (player_data : gmap string value)
    (as_spectator : value) (t_joined : Z) : M (option Player) :=
  o ← get_session sid;
  match o with
  | None => ret None
  | Some session =>
      full ← lift (if truthy as_spectator then is_spectator_full session
                    else is_full session);
      if (full : bool) then ret None
      else
        (if truthy as_spectator then
           c ← lift (py_add1 (current_spectators session));
           mutate sid (set_current_spectators c)
         else
           c ← lift (py_add1 (current_pilots session));
           mutate sid (set_current_pilots c)) ;;
        v ← lift (subscript player_data "steam_id");
        s ← lift (match v with VStr s => Ok s | _ => Raise TypeError end);
        let player :=
          {| steam_id := s;
             name := dget player_data "name" (VStr ("Player_" +:+ last6 s));
             avatar_url := dget player_data "avatar_url" (VStr "");
             is_host := false;
             is_spectator := as_spectator;
             joined_at := t_joined |} in
        mutate sid (λ x, set_players (players x ++ [player]) x) ;;
        create_task "player_joined" (PPlayerJoined sid player) ;;
        ret (Some player)
  end.

Definition remove_player (sid : string) (steam : value) : M bool :=
  o ← get_session sid;
  match o with
  | None => ret false
  | Some session =>
      match pop_first steam (players session) with
      | None => ret false
      | Some (removed, rest) =>
          mutate sid (set_players rest) ;;
          (if truthy (is_spectator removed) then
             c ← lift (py_sub1 (current_spectators session));
             mutate sid (set_current_spectators c)
           else
             c ← lift (py_sub1 (current_pilots session));
             mutate sid (set_current_pilots c)) ;;
          (if is_host removed then
             delete_session sid ;; ret tt
           else
             create_task "player_left" (PPlayerLeft sid steam)) ;;
          ret true
      end
  end.

(** A session is stale when [(now - last_heartbeat).total_seconds()]
    exceeds [session_timeout]; times are in microseconds. *)
Definition is_stale (timeout now : Z) (s : GameSession) : bool :=
  (timeout * 1000000 <? now - last_heartbeat s)%Z.

Definition stale_ids (w : world) (now : Z) : list string :=
  (filter (λ kv, is_stale (session_timeout w) now kv.2 = true) (sessions w)).*1.

Definition cleanup_stale_sessions (now : Z) : M unit :=
  λ w, for_each (stale_ids w now) (λ sid, delete_session sid ;; ret tt) w.

(** Stable sort by [created_at], newest first, as
    [sort(key=.., reverse=True)] orders the listing *)
Fixpoint insert_by_created (x : session_dict) (l : list session_dict)
    : list session_dict :=
  match l with
  | [] => [x]
  | y :: l' =>
      if (created_at (d_fields y) <=? created_at (d_fields x))%Z
      then x :: y :: l'
      else y :: insert_by_created x l'
  end.

Definition sort_newest_first (l : list session_dict) : list session_dict :=
  foldr insert_by_created [] l.

(** [mode] is the [game_mode] argument: the [mode] query parameter,
    [None] when missing *)
Fixpoint list_loop (mode : option string) (has_slots : bool)
    (l : list (string * GameSession)) : res (list session_dict) :=
  match l with
  | [] => Ok []
  | (_, session) :: l' =>
      let skip_mode :=
        match mode with
        | Some m => truthy (VStr m) && negb (bool_decide (game_mode session = VStr m))
        | None => false
        end in
      if skip_mode then list_loop mode has_slots l'
      else
        match (if has_slots then is_full session else Ok false) with
        | Raise e => Raise e
        | Ok true => list_loop mode has_slots l'
        | Ok false =>
            match list_loop mode has_slots l' with
            | Raise e => Raise e
            | Ok ds => Ok (to_dict session :: ds)
            end
        end
  end.

Definition list_sessions (mode : option string) (has_slots : bool)
    : M (list session_dict) :=
  λ w, (match list_loop mode has_slots (sessions w) with
        | Ok ds => Ok (sort_newest_first ds)
        | Raise e => Raise e
        end, w).

(** One run of the coroutine [broadcast_update(event_type, data)]:
    [now] is its clock reading and [fails ws] tells whether [send_str]
    raises on socket [ws].  The run is taken as one step; interleaving
    with other coroutines at its [await]s is not represented. *)
Definition broadcast_update (ev : event) (now : Z) (fails : nat → bool) : M unit :=
  modify (λ w,
    let message := mkEnvelope (event_type ev) (event_data ev) now in
    let targets := elements (websockets w) in
    let dead := filter (λ ws, fails ws = true) targets in
    let reached := filter (λ ws, fails ws = false) targets in
    set_sockets (websockets w ∖ list_to_set dead)
                (wire w ++ ((λ ws, (ws, message)) <$> reached)) w).

End SessionManager.

(** ** Request handlers

    A handler receives the parsed body ([None] when [request.json()]
    raises) and returns a response; an exception escaping a handler is the
    framework's 500 and is kept as [Raise]. *)

Inductive body : Type :=
  | JError (msg : string)
  | JSession (d : session_dict)
  | JStatus (s : string)
  | JJoined (host_ip host_port : value) (sid : string)
            (map_id track_id is_custom download_allowed : value).

Record response : Type := mkResponse {
  http_status : Z;
  http_body : body
}.

Definition json_response (b : body) (code : Z) : response :=
  {| http_status := code; http_body := b |}.

Section handlers.
Variable sha256_hex : string → string.

(** [peername] is the host part of
    [request.transport.get_extra_info('peername')] and [forwarded] the
    [X-Forwarded-For] header, each [None] when missing. *)
Definition create_session (req : option (gmap string value))
    (peername forwarded : option string) (uuid8 : string)
    (t_created t_heartbeat t_joined : Z) : M response :=
  match req with
  | None => ret (json_response (JError "Invalid JSON") 400)
  | Some data =>
      match data !! "host_steam_id" with
      | None => ret (json_response (JError "host_steam_id is required") 400)
      | Some _ =>
          let data :=
            match peername with
            | Some ip => <["host_ip" := VStr ip]> data
            | None => data
            end in
          let data :=
            match forwarded with
            | Some f =>
                if truthy (VStr f)
                then <["host_ip" := VStr (strip (before_comma f))]> data
                else data
            | None => data
            end in
          session ← SessionManager.create_session sha256_hex uuid8
                      t_created t_heartbeat t_joined data;
          ret (json_response (JSession (to_dict session)) 201)
      end
  end.

Definition get_session (sid : string) : M response :=
  o ← SessionManager.get_session sid;
  match o with
  | None => ret (json_response (JError "Session not found") 404)
  | Some session => ret (json_response (JSession (to_dict session)) 200)
  end.

Definition update_session (sid : string) (req : option (gmap string value))
    (now : Z) : M response :=
  match req with
  | None => ret (json_response (JError "Invalid JSON") 400)
  | Some data =>
      o ← SessionManager.update_session sid now data;
      match o with
      | None => ret (json_response (JError "Session not found") 404)
      | Some session => ret (json_response (JSession (to_dict session)) 200)
      end
  end.

Definition delete_session (sid : string) : M response :=
  b ← SessionManager.delete_session sid;
  if (b : bool) then ret (json_response (JStatus "deleted") 200)
  else ret (json_response (JError "Session not found") 404).

Definition heartbeat_session (sid : string) (now : Z) : M response :=
  b ← SessionManager.heartbeat sid now;
  if (b : bool) then ret (json_response (JStatus "ok") 200)
  else ret (json_response (JError "Session not found") 404).

(** The password test of [join_session]: [Ok true] lets the request
    through, [Ok false] is the 403, and [.encode()] raises on a password
    that is not a str. *)
Definition check_password (session : GameSession) (data : gmap string value)
    : res bool :=
  if negb (String.eqb (password_hash session) "") then
    match dget data "password" (VStr "") with
    | VStr password =>
        Ok (String.eqb (sha256_hex password) (password_hash session))
    | _ => Raise AttributeError
    end
  else Ok true.

Definition join_session (sid : string) (req : option (gmap string value))
    (t_joined : Z) : M response :=
  match req with
  | None => ret (json_response (JError "Invalid JSON") 400)
  | Some data =>
      o ← SessionManager.get_session sid;
      match o with
      | None => ret (json_response (JError "Session not found") 404)
      | Some session =>
          ok ← lift (check_password session data);
          if (ok : bool) then
            let as_spectator := dget data "as_spectator" (VBool false) in
            player ← SessionManager.add_player sid data as_spectator t_joined;
            match player with
            | None => ret (json_response (JError "Session is full") 409)
            | Some _ =>
                ret (json_response
                       (JJoined (host_ip session) (host_port session) sid
                                (map_id session) (track_id session)
                                (is_custom_track session)
                                (allow_track_download session)) 200)
            end
          else ret (json_response (JError "Invalid password") 403)
      end
  end.

Definition leave_session (sid : string) (req : option (gmap string value))
    : M response :=
  match req with
  | None => ret (json_response (JError "Invalid JSON") 400)
  | Some data =>
      let steam := dget data "steam_id" VNone in
      if negb (truthy steam)
      then ret (json_response (JError "steam_id is required") 400)
      else
        b ← SessionManager.remove_player sid steam;
        if (b : bool) then ret (json_response (JStatus "left") 200)
        else ret (json_response (JError "Player not in session") 404)
  end.

(** [websocket_handler] up to its receive loop: the socket joins the
    set and is sent the listing.  [send_fails] tells whether that
    [send_str] raises; the socket is then still in the set.  Replies to
    [ping] are not recorded. *)
Definition websocket_connect (ws : nat) (now : Z) (send_fails : bool) : M unit :=
  modify (λ w, set_sockets ({[ws]} ∪ websockets w) (wire w) w);;
  ds ← SessionManager.list_sessions None true;
  if send_fails then lift (Raise AttributeError)
  else modify (λ w, set_sockets (websockets w)
                      (wire w ++ [(ws, mkEnvelope "initial" (PInitial ds) now)]) w).

(** The [finally] of [websocket_handler] *)
Definition websocket_disconnect (ws : nat) : M unit :=
  modify (λ w, set_sockets (websockets w ∖ {[ws]}) (wire w) w).

(** ** The server as a transition system

    One [action] is one handler call, one pass of the body of
    [cleanup_task], one run of the oldest pending broadcast coroutine,
    or a subscriber connecting or disconnecting.  Handlers have no [await] after the body is read, so each
    is one step. *)

Inductive action : Type :=
  | ACreate (req : option (gmap string value)) (peername forwarded : option string)
            (uuid8 : string) (t_created t_heartbeat t_joined : Z)
  | AUpdate (sid : string) (req : option (gmap string value)) (now : Z)
  | ADelete (sid : string)
  | AHeartbeat (sid : string) (now : Z)
  | AJoin (sid : string) (req : option (gmap string value)) (t_joined : Z)
  | ALeave (sid : string) (req : option (gmap string value))
  | ASweep (now : Z)
  | ABroadcast (now : Z) (fails : nat → bool)
  | AConnect (ws : nat) (now : Z) (send_fails : bool)
  | ADisconnect (ws : nat).

Definition run_next_task (now : Z) (fails : nat → bool) : M unit :=
  λ w, match loop_tasks w with
       | [] => (Ok tt, w)
       | ev :: rest =>
           SessionManager.broadcast_update ev now fails (set_loop_tasks rest w)
       end.

Definition step (a : action) (w : world) : world :=
  match a with
  | ACreate req peer fwd uuid8 t1 t2 t3 => (create_session req peer fwd uuid8 t1 t2 t3 w).2
  | AUpdate sid req now => (update_session sid req now w).2
  | ADelete sid => (delete_session sid w).2
  | AHeartbeat sid now => (heartbeat_session sid now w).2
  | AJoin sid req t => (join_session sid req t w).2
  | ALeave sid req => (leave_session sid req w).2
  | ASweep now => (SessionManager.cleanup_stale_sessions now w).2
  | ABroadcast now fails => (run_next_task now fails w).2
  | AConnect ws now send_fails => (websocket_connect ws now send_fails w).2
  | ADisconnect ws => (websocket_disconnect ws w).2
  end.

Definition run (acts : list action) (w : world) : world :=
  foldl (λ w a, step a w) w acts.
End handlers.

(** ** Invariants and observations used by the properties *)

(** Players whose [is_spectator] is true ([spectator = true]) or false *)
Definition count_role (spectator : bool) (ps : list Player) : Z :=
  Z.of_nat (length (filter (λ p, truthy (is_spectator p) = spectator) ps)).

(** [c <= m] on numbers *)
Definition within (c m : value) : Prop :=
  match as_num c, as_num m with
  | Some x, Some y => (x ≤ y)%Z
  | _, _ => False
  end.

#[global] Instance within_dec c m : Decision (within c m).
Proof. unfold within. destruct (as_num c), (as_num m); apply _. Defined.

(** The counters agree with the player list and respect the ceilings. *)
Definition counters_ok (s : GameSession) : Prop :=
  current_pilots s = VInt (count_role false (players s)) ∧
  current_spectators s = VInt (count_role true (players s)) ∧
  within (current_pilots s) (max_pilots s) ∧
  within (current_spectators s) (max_spectators s).

#[global] Instance counters_ok_dec s : Decision (counters_ok s).
Proof. unfold counters_ok. apply _. Defined.

Definition registry_ok (w : world) : Prop :=
  Forall (λ kv, counters_ok kv.2) (sessions w).

#[global] Instance registry_ok_dec w : Decision (registry_ok w).
Proof. unfold registry_ok. apply _. Defined.


(** The first player is the host entry [create_session] appended. *)
Definition host_first (s : GameSession) : Prop :=
  match players s with
  | p :: _ =>
      is_host p = true ∧ steam_id p = host_steam_id s ∧ truthy (is_spectator p) = false
  | [] => False
  end.

(** Both counters hold numbers, as the dataclass declares them. *)
Definition typed_counters (s : GameSession) : Prop :=
  is_Some (as_num (current_pilots s)) ∧ is_Some (as_num (current_spectators s)).

Definition session_wf (s : GameSession) : Prop := host_first s ∧ typed_counters s.

(** The dict has no repeated key, and every session is well formed. *)
Definition world_wf (w : world) : Prop :=
  NoDup (dict_keys (sessions w)) ∧ Forall (λ kv, session_wf kv.2) (sessions w).

(** A computation keeps a property of the state, however it ends. *)
Definition preserves (I : world → Prop) {A} (m : M A) : Prop :=
  ∀ w, I w → I (m w).2.

(** A request body that, where it carries a counter, carries a number *)
Definition typed_body (data : gmap string value) : Prop :=
  (∀ v, data !! "current_pilots" = Some v → is_Some (as_num v)) ∧
  (∀ v, data !! "current_spectators" = Some v → is_Some (as_num v)).

Definition typed_action (a : action) : Prop :=
  match a with
  | AUpdate _ (Some data) _ => typed_body data
  | _ => True
  end.

(** One round of the loop of [update_session] on the session object *)
Definition apply_field (data : gmap string value) (field : string)
    (s : GameSession) : GameSession :=
  match data !! field with
  | Some v => setattr field v s
  | None => s
  end.


(** The counter that counts a player of the given role, and its
    assignment *)
Definition counter_of (spectator : bool) (s : GameSession) : value :=
  if spectator then current_spectators s else current_pilots s.

Definition set_counter (spectator : bool) (c : value) (s : GameSession) : GameSession :=
  if spectator then set_current_spectators c s else set_current_pilots c s.

(** The broadcast [delete_session] schedules *)
Definition deleted_event (sid : string) : event :=
  mkEvent "session_deleted" (PSessionId sid).



(** ** Concrete requests and worlds on which the model is run *)

(** A stand-in for the digest when the model is evaluated *)
Definition demo_digest (s : string) : string := "sha256:" +:+ s.

Definition host_body : gmap string value := {[ "host_steam_id" := VStr "S1" ]}.

Definition locked_body : gmap string value :=
  <["password" := VStr "secret"]> host_body.

(** One session, created by host [S1] from peer 203.0.113.5 *)
Definition lobby : world :=
  run demo_digest
    [ACreate (Some host_body) (Some "203.0.113.5") None "abcd1234" 10 11 12] init.

(** The same with a password *)
Definition locked_lobby : world :=
  run demo_digest
    [ACreate (Some locked_body) (Some "203.0.113.5") None "abcd1234" 10 11 12] init.

Definition join_body (steam : string) : gmap string value :=
  {[ "steam_id" := VStr steam ]}.

(** ** Read-only handlers *)

(** [str.lower()] on ASCII letters; other bytes are kept, which decides
    the comparison with ["true"] as Python does. *)
Definition ascii_lower (c : Ascii.ascii) : Ascii.ascii :=
  let n := Ascii.nat_of_ascii c in
  if (65 <=? n) && (n <=? 90) then Ascii.ascii_of_nat (n + 32) else c.

Fixpoint lower (s : string) : string :=
  match s with
  | EmptyString => EmptyString
  | String c s' => String (ascii_lower c) (lower s')
  end.

(** The body of [GET /api/sessions] *)
Record listing : Type := mkListing {
  listing_sessions : list session_dict;
  listing_count : nat
}.

(** [mode] and [available] are the query parameters, [None] when
    missing. *)
Definition list_sessions (mode available : option string) : M listing :=
  let has_slots := String.eqb (lower (default "true" available)) "true" in
  ds ← SessionManager.list_sessions mode has_slots;
  ret {| listing_sessions := ds; listing_count := length ds |}.

(** The body of [GET /health] *)
Record health : Type := mkHealth {
  health_status : string;
  active_sessions : nat;
  connected_clients : nat
}.

Definition health_check : M health :=
  λ w, (Ok {| health_status := "healthy";
              active_sessions := length (sessions w);
              connected_clients := size (websockets w) |}, w).

(** ** Further invariants and observations *)

(** A property of every dict entry, given its key *)
Definition every_session (P : string → GameSession → Prop) (w : world) : Prop :=
  Forall (λ kv, P kv.1 kv.2) (sessions w).

(** The attributes no method assigns after the session is built *)
Definition fixed_fields (s : GameSession) :=
  (session_id s, host_steam_id s, host_name s, host_avatar_url s, host_ip s,
   host_port s, game_mode s, max_pilots s, max_spectators s, physics_mode s,
   allow_track_download s, password_hash s, created_at s).

(** An action that does not create a session under the id [sid] *)
Definition spares (sid : string) (a : action) : Prop :=
  match a with
  | ACreate _ _ _ uuid8 _ _ _ => uuid8 ≠ sid
  | _ => True
  end.

(** The ceilings are numbers, at most 6 pilots and 15 spectators. *)
Definition ceilings_clamped (s : GameSession) : Prop :=
  within (max_pilots s) (VInt 6) ∧ within (max_spectators s) (VInt 15).

(** No entry after the first is a host entry, and a host entry carries the
    session's [host_steam_id]. *)
Definition host_only_first (s : GameSession) : Prop :=
  Forall (λ p, is_host p = false) (tail (players s)) ∧
  Forall (λ p, is_host p = true → steam_id p = host_steam_id s) (players s).

(** A payload that carries no password digest *)
Definition no_digest (p : payload) : Prop :=
  match p with
  | PInitial ds => Forall (λ d, password_hash (d_fields d) = "") ds
  | PSession d => password_hash (d_fields d) = ""
  | _ => True
  end.

(** Neither a pending broadcast nor a written message carries a digest. *)
Definition nothing_leaks (w : world) : Prop :=
  Forall (λ ev, no_digest (event_data ev)) (loop_tasks w) ∧
  Forall (λ m, no_digest (env_data m.2)) (wire w).

(** Newest first *)
Definition newest_first (ds : list session_dict) : Prop :=
  StronglySorted (λ a b, (created_at (d_fields b) ≤ created_at (d_fields a))%Z) ds.

(** What [list_sessions] keeps of a session *)
Definition listed (mode : option string) (has_slots : bool) (s : GameSession) : Prop :=
  (∀ m, mode = Some m → m ≠ "" → game_mode s = VStr m) ∧
  (has_slots = true → is_full s = Ok false).

(** The session a successful join leaves behind *)
Definition joined (spec : value) (c : value) (p : Player) (s : GameSession) : GameSession :=
  set_players (players s ++ [p]) (set_counter (truthy spec) c s).

(** * Properties *)

Example strip_ex : strip (before_comma " 10.0.0.7 , 192.168.1.1") = "10.0.0.7".
Proof. reflexivity. Qed.
Example last6_ex : last6 "76561198000000001" = "000001" ∧ last6 "S1" = "S1".
Proof. split; reflexivity. Qed.

(** ** Facts about the dict operations *)

Ltac case_eqb :=
  match goal with
  | |- context [String.eqb ?a ?b] => destruct (String.eqb_spec a b); simplify_eq/=
  | H : context [String.eqb ?a ?b] |- _ => destruct (String.eqb_spec a b); simplify_eq/=
  end.

Section dict_facts.
Context {V : Type}.
Implicit Types (d : list (string * V)) (k : string) (v : V) (f : V → V).

Lemma dict_get_None k d : dict_get k d = None ↔ k ∉ dict_keys d.
Proof.
  unfold dict_keys. induction d as [|[k' v'] d IH]; csimpl.
  - split; [intros _; apply not_elem_of_nil | done].
  - rewrite not_elem_of_cons.
    destruct (String.eqb_spec k k') as [->|Hne]; [| rewrite IH]; split; intros H;
      try done; try (by destruct H); by split.
Qed.

Lemma dict_get_Some_elem k v d : dict_get k d = Some v → (k, v) ∈ d.
Proof.
  induction d as [|[k' v'] d IH]; simpl; [done |].
  case_eqb; [intros; simplify_eq; left | right; auto].
Qed.

Lemma dict_elem_get k v d : NoDup (dict_keys d) → (k, v) ∈ d → dict_get k d = Some v.
Proof.
  unfold dict_keys. induction d as [|[k' v'] d IH]; csimpl.
  - intros _ Hin. by apply elem_of_nil in Hin.
  - rewrite NoDup_cons, elem_of_cons. intros [Hk Hd] [Heq | Hin].
    + simplify_eq. by rewrite String.eqb_refl.
    + case_eqb; [| auto]. destruct Hk. by apply (list_elem_of_fmap_2 fst) in Hin.
Qed.

Lemma dict_get_set k k' v d :
  dict_get k' (dict_set k v d) = if decide (k = k') then Some v else dict_get k' d.
Proof.
  induction d as [|[k0 v0] d IH]; simpl.
  - case_decide; simplify_eq; [by rewrite String.eqb_refl |].
    case_eqb; done.
  - destruct (String.eqb_spec k k0) as [->|Hne]; simpl.
    + case_decide; simplify_eq; [by rewrite String.eqb_refl |]. by case_eqb.
    + rewrite IH. case_decide; simplify_eq; [| done]. by case_eqb.
Qed.

Lemma dict_get_mutate k k' f d :
  dict_get k' (dict_mutate k f d) =
  if decide (k = k') then f <$> dict_get k' d else dict_get k' d.
Proof.
  induction d as [|[k0 v0] d IH]; simpl; [by case_decide |].
  destruct (String.eqb_spec k k0) as [->|Hne]; simpl.
  - case_decide; simplify_eq; [by rewrite String.eqb_refl | by case_eqb].
  - rewrite IH. case_decide; simplify_eq; [| done]. by case_eqb.
Qed.

Lemma dict_keys_mutate k f d : dict_keys (dict_mutate k f d) = dict_keys d.
Proof.
  unfold dict_keys. induction d as [|[k0 v0] d IH]; csimpl; [done |].
  destruct (String.eqb k k0); csimpl; by rewrite ?IH.
Qed.

Lemma dict_keys_set k v d :
  dict_keys (dict_set k v d) =
  if decide (k ∈ dict_keys d) then dict_keys d else dict_keys d ++ [k].
Proof.
  unfold dict_keys. induction d as [|[k0 v0] d IH]; csimpl.
  - done.
  - destruct (String.eqb_spec k k0) as [->|Hne]; csimpl.
    + rewrite decide_True; [done | left].
    + rewrite IH. case_decide as Hin.
      * rewrite decide_True; [done | by right].
      * rewrite decide_False; [done |]. rewrite elem_of_cons. by intros [?|?].
Qed.

Lemma dict_keys_pop k d : dict_keys (dict_pop k d) `sublist_of` dict_keys d.
Proof.
  unfold dict_keys. induction d as [|[k0 v0] d IH]; csimpl; [done |].
  destruct (String.eqb k k0); csimpl; [by apply sublist_cons | by apply sublist_skip].
Qed.

Lemma dict_pop_sublist k d : dict_pop k d `sublist_of` d.
Proof.
  induction d as [|[k0 v0] d IH]; simpl; [done |].
  destruct (String.eqb k k0); [by apply sublist_cons | by apply sublist_skip].
Qed.

Lemma NoDup_dict_set k v d : NoDup (dict_keys d) → NoDup (dict_keys (dict_set k v d)).
Proof.
  intros Hd. rewrite dict_keys_set. case_decide; [done |].
  apply NoDup_app. split_and!; [done | | apply NoDup_singleton].
  intros x Hx ->%list_elem_of_singleton. done.
Qed.

Lemma NoDup_dict_pop k d : NoDup (dict_keys d) → NoDup (dict_keys (dict_pop k d)).
Proof. intros Hd. eapply sublist_NoDup; [done | apply dict_keys_pop]. Qed.

Lemma NoDup_dict_mutate k f d : NoDup (dict_keys d) → NoDup (dict_keys (dict_mutate k f d)).
Proof. by rewrite dict_keys_mutate. Qed.

Lemma dict_get_pop k k' d :
  NoDup (dict_keys d) →
  dict_get k' (dict_pop k d) = if decide (k = k') then None else dict_get k' d.
Proof.
  unfold dict_keys. induction d as [|[k0 v0] d IH]; csimpl; [by case_decide |].
  rewrite NoDup_cons. intros [Hk Hd].
  destruct (String.eqb_spec k k0) as [->|Hne]; csimpl.
  - case_decide; simplify_eq; [by apply dict_get_None | by case_eqb].
  - rewrite IH by done. case_decide; simplify_eq; [by case_eqb | done].
Qed.

Lemma dict_mutate_mutate k f g d :
  dict_mutate k f (dict_mutate k g d) = dict_mutate k (f ∘ g) d.
Proof.
  induction d as [|[k0 v0] d IH]; simpl; [done |].
  destruct (String.eqb k k0) eqn:E; simpl; rewrite E; [done | by rewrite IH].
Qed.

Lemma dict_mutate_ext k f g d :
  (∀ v, dict_get k d = Some v → f v = g v) → dict_mutate k f d = dict_mutate k g d.
Proof.
  induction d as [|[k0 v0] d IH]; simpl; [done |].
  destruct (String.eqb k k0); intros H; [by rewrite H | by rewrite IH].
Qed.

Lemma dict_mutate_id k d : dict_mutate k id d = d.
Proof.
  induction d as [|[k0 v0] d IH]; simpl; [done |].
  destruct (String.eqb k k0); [done | by rewrite IH].
Qed.

Lemma dict_mutate_absent k f d : dict_get k d = None → dict_mutate k f d = d.
Proof.
  induction d as [|[k0 v0] d IH]; simpl; [done |].
  destruct (String.eqb k k0); [done | intros; by rewrite IH].
Qed.

(** A property of the stored objects survives each dict operation. *)
Section forall_values.
Variable P : V → Prop.

Lemma Forall_dict_set k v d :
  Forall (λ kv, P kv.2) d → P v → Forall (λ kv, P kv.2) (dict_set k v d).
Proof.
  intros Hd Hv. induction Hd as [|[k0 v0] d H0 Hd IH]; simpl.
  - by repeat constructor.
  - destruct (String.eqb k k0); by constructor.
Qed.

Lemma Forall_dict_pop k d :
  Forall (λ kv, P kv.2) d → Forall (λ kv, P kv.2) (dict_pop k d).
Proof.
  intros Hd. induction Hd as [|[k0 v0] d H0 Hd IH]; simpl; [constructor |].
  destruct (String.eqb k k0); [done | by constructor].
Qed.

Lemma Forall_dict_mutate k f d :
  Forall (λ kv, P kv.2) d →
  (∀ v, dict_get k d = Some v → P v → P (f v)) →
  Forall (λ kv, P kv.2) (dict_mutate k f d).
Proof.
  intros Hd. induction Hd as [|[k0 v0] d H0 Hd IH]; simpl; [constructor |].
  destruct (String.eqb k k0); intros Hf; constructor; simpl in *; auto.
Qed.

Lemma Forall_dict_get k v d :
  Forall (λ kv, P kv.2) d → dict_get k d = Some v → P v.
Proof.
  intros Hd Hk%dict_get_Some_elem. rewrite Forall_forall in Hd. by apply (Hd (k, v)).
Qed.
End forall_values.
End dict_facts.

(** ** Running the methods *)

Ltac mrun :=
  cbv [mbind M_bind mret M_ret ret lift modify create_task mutate
       SessionManager.get_session];
  cbn [fst snd].

Section registry.
Variable sha256_hex : string → string.


(** What a call of [SessionManager.create_session] amounts to: it raises
    before anything is stored, or it stores the session it returns and
    schedules one broadcast. *)
Lemma create_session_inv w uuid8 t1 t2 t3 data r w' :
  SessionManager.create_session sha256_hex uuid8 t1 t2 t3 data w = (r, w') →
  (∃ e, r = Raise e ∧ w' = w) ∨
  (∃ s, r = Ok s ∧
     w' = set_loop_tasks
            (loop_tasks w ++ [mkEvent "session_created" (PSession (to_dict s))])
            (set_sessions (dict_set uuid8 s (sessions w)) w) ∧
     session_id s = uuid8 ∧
     is_Some (data !! "host_steam_id") ∧
     host_ip s = dget data "host_ip" (VStr "0.0.0.0") ∧
     py_min (dget data "max_pilots" (VInt 6)) (VInt 6) = Ok (max_pilots s) ∧
     py_min (dget data "max_spectators" (VInt 15)) (VInt 15) = Ok (max_spectators s) ∧
     current_pilots s = VInt 1 ∧
     current_spectators s = VInt 0 ∧
     players s = [ {| steam_id := host_steam_id s; name := host_name s;
                      avatar_url := host_avatar_url s; is_host := true;
                      is_spectator := VBool false; joined_at := t3 |} ]).
Proof.
  unfold SessionManager.create_session, subscript. mrun.
  destruct (data !! "host_steam_id") as [hid|] eqn:Hhid;
    [| intros [= <- <-]; left; eauto].
  destruct hid as [| |n|h]; try (intros [= <- <-]; left; by eauto).
  destruct (py_min (dget data "max_pilots" _) _) as [mp|] eqn:Hmp;
    [| intros [= <- <-]; left; eauto].
  destruct (py_min (dget data "max_spectators" _) _) as [ms|] eqn:Hms;
    [| intros [= <- <-]; left; eauto].
  destruct (truthy (dget data "password" VNone)).
  - destruct (dget data "password" VNone) as [| | |pw];
      try (intros [= <- <-]; left; by eauto).
    intros [= <- <-]. right. eexists. split; [done |]. by split_and!.
  - intros [= <- <-]. right. eexists. split; [done |]. by split_and!.
Qed.

Lemma set_sessions_same w : set_sessions (sessions w) w = w.
Proof. by destruct w. Qed.

Lemma set_sessions_twice d d' w :
  set_sessions d (set_sessions d' w) = set_sessions d w.
Proof. done. Qed.

Lemma sessions_set_sessions d w : sessions (set_sessions d w) = d.
Proof. done. Qed.

Lemma for_each_update_fields fs sid data w :
  for_each fs (λ field,
    match data !! field with
    | Some v => mutate sid (setattr field v)
    | None => ret tt
    end) w =
  (Ok tt, set_sessions
            (dict_mutate sid (λ s, foldl (λ s f, apply_field data f s) s fs)
               (sessions w)) w).
Proof.
  revert w. induction fs as [|f fs IH]; intros w; simpl.
  - mrun. f_equal. rewrite (dict_mutate_ext _ _ id) by done.
    by rewrite dict_mutate_id, set_sessions_same.
  - mrun. destruct (data !! f) as [v|] eqn:Hf; rewrite IH; f_equal.
    + rewrite set_sessions_twice, sessions_set_sessions, dict_mutate_mutate.
      f_equal. apply dict_mutate_ext.
      intros s _. simpl. f_equal. unfold apply_field. by rewrite Hf.
    + f_equal. apply dict_mutate_ext.
      intros s _. f_equal. unfold apply_field. by rewrite Hf.
Qed.

Lemma update_session_eq w sid s now data :
  dict_get sid (sessions w) = Some s →
  let touch x :=
    set_last_heartbeat now
      (foldl (λ s f, apply_field data f s) x SessionManager.updateable) in
  SessionManager.update_session sid now data w =
  (Ok (Some (touch s)),
   set_loop_tasks
     (loop_tasks w ++ [mkEvent "session_updated" (PSession (to_dict (touch s)))])
     (set_sessions (dict_mutate sid touch (sessions w)) w)).
Proof.
  intros Hs touch. unfold SessionManager.update_session.
  unfold mbind at 1, M_bind at 1. unfold SessionManager.get_session at 1.
  rewrite Hs. unfold mbind at 1, M_bind at 1.
  rewrite for_each_update_fields. mrun.
  rewrite !sessions_set_sessions, !set_sessions_twice.
  rewrite dict_mutate_mutate, dict_get_mutate, decide_True, Hs by done.
  done.
Qed.

Lemma update_session_absent w sid now data :
  dict_get sid (sessions w) = None →
  SessionManager.update_session sid now data w = (Ok None, w).
Proof. intros Hs. unfold SessionManager.update_session. mrun. by rewrite Hs. Qed.

Lemma add_player_eq w sid s data spec t :
  dict_get sid (sessions w) = Some s →
  SessionManager.add_player sid data spec t w =
  match (if truthy spec then is_spectator_full s else is_full s) with
  | Raise e => (Raise e, w)
  | Ok true => (Ok None, w)
  | Ok false =>
      match py_add1 (counter_of (truthy spec) s) with
      | Raise e => (Raise e, w)
      | Ok c =>
          let counted :=
            set_sessions (dict_mutate sid (set_counter (truthy spec) c) (sessions w)) w in
          match data !! "steam_id" with
          | None => (Raise (KeyError "steam_id"), counted)
          | Some (VStr x) =>
              let player :=
                {| steam_id := x;
                   name := dget data "name" (VStr ("Player_" +:+ last6 x));
                   avatar_url := dget data "avatar_url" (VStr "");
                   is_host := false;
                   is_spectator := spec;
                   joined_at := t |} in
              (Ok (Some player),
               set_loop_tasks
                 (loop_tasks w ++ [mkEvent "player_joined" (PPlayerJoined sid player)])
                 (set_sessions
                    (dict_mutate sid
                       (λ x, set_players (players x ++ [player])
                               (set_counter (truthy spec) c x))
                       (sessions w)) w))
          | Some _ => (Raise TypeError, counted)
          end
      end
  end.
Proof.
  intros Hs. unfold SessionManager.add_player, subscript, counter_of, set_counter.
  mrun. rewrite Hs.
  destruct (truthy spec);
    (match goal with |- context [match ?c with Ok _ => _ | Raise _ => _ end] =>
       destruct c as [[]|] end; [done | | done]);
    (match goal with |- context [py_add1 ?c] => destruct (py_add1 c) end; [| done]);
    simpl; destruct (data !! "steam_id") as [[| | |x]|]; try done;
    simpl; by rewrite dict_mutate_mutate.
Qed.

Lemma add_player_absent w sid data spec t :
  dict_get sid (sessions w) = None →
  SessionManager.add_player sid data spec t w = (Ok None, w).
Proof. intros Hs. unfold SessionManager.add_player. mrun. by rewrite Hs. Qed.

Lemma dict_pop_mutate {V} k (f : V → V) d :
  dict_pop k (dict_mutate k f d) = dict_pop k d.
Proof.
  induction d as [|[k0 v0] d IH]; simpl; [done |].
  destruct (String.eqb k k0) eqn:E; simpl; rewrite E; [done | by rewrite IH].
Qed.

Lemma delete_session_eq w sid :
  SessionManager.delete_session sid w =
  match dict_get sid (sessions w) with
  | Some _ =>
      (Ok true,
       set_loop_tasks (loop_tasks w ++ [mkEvent "session_deleted" (PSessionId sid)])
         (set_sessions (dict_pop sid (sessions w)) w))
  | None => (Ok false, w)
  end.
Proof. unfold SessionManager.delete_session. mrun. by destruct (dict_get _ _). Qed.

Lemma remove_player_eq w sid s steam :
  dict_get sid (sessions w) = Some s →
  SessionManager.remove_player sid steam w =
  match pop_first steam (players s) with
  | None => (Ok false, w)
  | Some (removed, rest) =>
      let role := truthy (is_spectator removed) in
      match py_sub1 (counter_of role s) with
      | Raise e =>
          (Raise e, set_sessions (dict_mutate sid (set_players rest) (sessions w)) w)
      | Ok c =>
          if is_host removed then
            (Ok true,
             set_loop_tasks
               (loop_tasks w ++ [mkEvent "session_deleted" (PSessionId sid)])
               (set_sessions (dict_pop sid (sessions w)) w))
          else
            (Ok true,
             set_loop_tasks
               (loop_tasks w ++ [mkEvent "player_left" (PPlayerLeft sid steam)])
               (set_sessions
                  (dict_mutate sid (λ x, set_counter role c (set_players rest x))
                     (sessions w)) w))
      end
  end.
Proof.
  intros Hs. unfold SessionManager.remove_player, counter_of, set_counter.
  unfold mbind at 1, M_bind at 1. unfold SessionManager.get_session at 1.
  rewrite Hs. destruct (pop_first steam (players s)) as [[removed rest]|]; [| done].
  mrun.
  destruct (truthy (is_spectator removed));
    (match goal with |- context [py_sub1 ?c] => destruct (py_sub1 c) end; [| done]);
    simpl; destruct (is_host removed); simpl;
    rewrite ?delete_session_eq; simpl;
    rewrite ?dict_mutate_mutate, ?dict_get_mutate, ?decide_True, ?Hs by done;
    simpl; by rewrite ?dict_pop_mutate.
Qed.

Lemma remove_player_absent w sid steam :
  dict_get sid (sessions w) = None →
  SessionManager.remove_player sid steam w = (Ok false, w).
Proof. intros Hs. unfold SessionManager.remove_player. mrun. by rewrite Hs. Qed.

(** ** Join: password and capacity *)

(** On a session that has a password digest, a join whose password is a
    str (or is missing, which reads as the empty str) and does not hash
    to the digest is answered 403 and the whole state, hence every
    counter and player list, is as before. *)
Theorem join_wrong_password_forbidden w sid s data pw t :
  dict_get sid (sessions w) = Some s →
  password_hash s ≠ "" →
  dget data "password" (VStr "") = VStr pw →
  sha256_hex pw ≠ password_hash s →
  join_session sha256_hex sid (Some data) t w =
    (Ok (json_response (JError "Invalid password") 403), w).
Proof.
  intros Hs Hpw Hdata Hne. unfold join_session, check_password. mrun.
  rewrite Hs, Hdata.
  destruct (String.eqb_spec (password_hash s) "") as [|_]; [done |].
  by destruct (String.eqb_spec (sha256_hex pw) (password_hash s)).
Qed.

(** On a session that has a password digest, a join whose [password] is
    present and not a str is not answered at all: [.encode()] raises
    before the comparison.  The state is as before. *)
Lemma join_non_str_password_raises w sid s data v t :
  dict_get sid (sessions w) = Some s →
  password_hash s ≠ "" →
  data !! "password" = Some v →
  (∀ pw, v ≠ VStr pw) →
  join_session sha256_hex sid (Some data) t w = (Raise AttributeError, w).
Proof.
  intros Hs Hpw Hdata Hv. unfold join_session, check_password, dget. mrun.
  rewrite Hs, Hdata.
  destruct (String.eqb_spec (password_hash s) "") as [|_]; [done |].
  destruct v as [| | |pw]; try done. by destruct (Hv pw).
Qed.


End registry.

Lemma join_wrong_password_forbidden_witness :
  join_session demo_digest "abcd1234"
    (Some (<["password" := VStr "guess"]> (join_body "P2"))) 20 locked_lobby =
  (Ok (json_response (JError "Invalid password") 403), locked_lobby).
Proof.
  eapply (join_wrong_password_forbidden demo_digest locked_lobby "abcd1234" _ _ "guess");
    [reflexivity | vm_compute; discriminate | reflexivity | vm_compute; discriminate].
Defined.

(** C3 fails where the supplied password is not a str.  On a session
    created with the password [secret], a join whose body carries
    [password: null] does not hash to the digest, yet the handler does
    not answer 403: [None.encode()] raises [AttributeError], which the
    server turns into a 500.  Nothing is changed. *)
Theorem join_null_password_not_forbidden :
  let data := <["password" := VNone]> (join_body "P2") in
  (∃ s, dict_get "abcd1234" (sessions locked_lobby) = Some s ∧
        password_hash s = demo_digest "secret") ∧
  join_session demo_digest "abcd1234" (Some data) 20 locked_lobby =
    (Raise AttributeError, locked_lobby).
Proof.
  split; [eexists; split; vm_compute; reflexivity |]. vm_compute. reflexivity.
Qed.


(** ** Update: the allow-list *)

Section update.
Implicit Types (data : gmap string value) (s : GameSession).

Lemma apply_field_known data s :
  apply_field data "status" s = set_status (dget data "status" (status s)) s ∧
  apply_field data "current_pilots" s =
    set_current_pilots (dget data "current_pilots" (current_pilots s)) s ∧
  apply_field data "current_spectators" s =
    set_current_spectators (dget data "current_spectators" (current_spectators s)) s ∧
  apply_field data "map_id" s = set_map_id (dget data "map_id" (map_id s)) s ∧
  apply_field data "track_id" s = set_track_id (dget data "track_id" (track_id s)) s ∧
  apply_field data "is_custom_track" s =
    set_is_custom_track (dget data "is_custom_track" (is_custom_track s)) s ∧
  apply_field data "laps" s = set_laps (dget data "laps" (laps s)) s ∧
  apply_field data "room_name" s = set_room_name (dget data "room_name" (room_name s)) s.
Proof.
  unfold apply_field, dget.
  split_and!;
    match goal with |- context [data !! ?k] => destruct (data !! k) end;
    first [reflexivity | by destruct s].
Qed.

(** The session object after the loop over [updateable] *)
Lemma update_loop_result data s :
  foldl (λ s f, apply_field data f s) s SessionManager.updateable =
  {| session_id := session_id s;
     host_steam_id := host_steam_id s;
     host_name := host_name s;
     host_avatar_url := host_avatar_url s;
     host_ip := host_ip s;
     host_port := host_port s;
     room_name := dget data "room_name" (room_name s);
     map_id := dget data "map_id" (map_id s);
     track_id := dget data "track_id" (track_id s);
     is_custom_track := dget data "is_custom_track" (is_custom_track s);
     game_mode := game_mode s;
     max_pilots := max_pilots s;
     max_spectators := max_spectators s;
     current_pilots := dget data "current_pilots" (current_pilots s);
     current_spectators := dget data "current_spectators" (current_spectators s);
     laps := dget data "laps" (laps s);
     physics_mode := physics_mode s;
     allow_track_download := allow_track_download s;
     password_hash := password_hash s;
     status := dget data "status" (status s);
     created_at := created_at s;
     last_heartbeat := last_heartbeat s;
     players := players s |}.
Proof.
  unfold SessionManager.updateable. cbn [foldl].
  repeat match goal with
         | |- context [apply_field data ?k ?x] =>
             lazymatch x with
             | context [apply_field] => fail
             | _ =>
                 let H := fresh in
                 pose proof (apply_field_known data x) as H;
                 destruct H as (H1 & H2 & H3 & H4 & H5 & H6 & H7 & H8);
                 first [rewrite H1 | rewrite H2 | rewrite H3 | rewrite H4
                       | rewrite H5 | rewrite H6 | rewrite H7 | rewrite H8];
                 clear H1 H2 H3 H4 H5 H6 H7 H8
             end
         end.
  by destruct s.
Qed.

(** C6. [update_session] on a live session stores, for each of the
    eight names of the allow-list, the value the body gives it (the old
    one when the body has no such key), sets [last_heartbeat] to the
    clock reading and keeps every other attribute; other sessions are
    untouched, and two bodies that agree on the allow-list have the same
    effect, whatever else they carry. *)
Theorem update_applies_allow_list_only w sid s now data :
  dict_get sid (sessions w) = Some s →
  let s' :=
    {| session_id := session_id s;
       host_steam_id := host_steam_id s;
       host_name := host_name s;
       host_avatar_url := host_avatar_url s;
       host_ip := host_ip s;
       host_port := host_port s;
       room_name := dget data "room_name" (room_name s);
       map_id := dget data "map_id" (map_id s);
       track_id := dget data "track_id" (track_id s);
       is_custom_track := dget data "is_custom_track" (is_custom_track s);
       game_mode := game_mode s;
       max_pilots := max_pilots s;
       max_spectators := max_spectators s;
       current_pilots := dget data "current_pilots" (current_pilots s);
       current_spectators := dget data "current_spectators" (current_spectators s);
       laps := dget data "laps" (laps s);
       physics_mode := physics_mode s;
       allow_track_download := allow_track_download s;
       password_hash := password_hash s;
       status := dget data "status" (status s);
       created_at := created_at s;
       last_heartbeat := now;
       players := players s |} in
  ∃ w',
    SessionManager.update_session sid now data w = (Ok (Some s'), w') ∧
    dict_get sid (sessions w') = Some s' ∧
    (∀ k, k ≠ sid → dict_get k (sessions w') = dict_get k (sessions w)) ∧
    (∀ data',
       (∀ f, f ∈ SessionManager.updateable → data' !! f = data !! f) →
       SessionManager.update_session sid now data' w =
       SessionManager.update_session sid now data w).
Proof.
  intros Hs s'.
  assert (set_last_heartbeat now
            (foldl (λ s f, apply_field data f s) s SessionManager.updateable) = s')
    as Hs' by (by rewrite update_loop_result).
  rewrite (update_session_eq w sid s now data Hs). cbn zeta. rewrite Hs'.
  eexists. split; [done |]. split_and!.
  - cbn [sessions set_loop_tasks set_sessions].
    by rewrite dict_get_mutate, decide_True, Hs, <-Hs'.
  - intros k Hk. cbn [sessions set_loop_tasks set_sessions].
    by rewrite dict_get_mutate, decide_False.
  - intros data' Hagree.
    rewrite (update_session_eq w sid s now data' Hs). cbn zeta.
    assert (∀ x, foldl (λ s f, apply_field data' f s) x SessionManager.updateable =
                 foldl (λ s f, apply_field data f s) x SessionManager.updateable)
      as Hloop.
    { intros x. rewrite !update_loop_result. unfold dget.
      rewrite !Hagree by (unfold SessionManager.updateable; set_solver). done. }
    rewrite Hloop, Hs'. do 3 f_equal. apply dict_mutate_ext. intros v _.
    by rewrite Hloop.
Qed.
End update.

Lemma update_applies_allow_list_only_witness :
  ∃ s' w',
    SessionManager.update_session "abcd1234" 50
      {[ "laps" := VInt 5; "host_ip" := VStr "198.51.100.9" ]} lobby = (Ok (Some s'), w') ∧
    laps s' = VInt 5 ∧ host_ip s' = VStr "203.0.113.5" ∧ last_heartbeat s' = 50%Z.
Proof.
  eassert (dict_get "abcd1234" (sessions lobby) = Some _) as Hs by (vm_compute; reflexivity).
  destruct (update_applies_allow_list_only lobby "abcd1234" _ 50
              {[ "laps" := VInt 5; "host_ip" := VStr "198.51.100.9" ]} Hs)
    as (w' & Hrun & _).
  eexists _, w'. split; [exact Hrun |]. split_and!; vm_compute; reflexivity.
Defined.

(** ** Create: where [host_ip] comes from, and session ids *)

Section create.
Variable sha256_hex : string → string.


(** C7, as the code has it.  After a create the dict still has no
    repeated id, the new session is stored under the id drawn, and
    every session stored under another id is as before; so when the id
    drawn is not that of a live session, every previously live session
    is kept. *)
Theorem create_keeps_other_sessions w uuid8 t1 t2 t3 data s w' :
  NoDup (dict_keys (sessions w)) →
  SessionManager.create_session sha256_hex uuid8 t1 t2 t3 data w = (Ok s, w') →
  NoDup (dict_keys (sessions w')) ∧
  dict_get uuid8 (sessions w') = Some s ∧
  session_id s = uuid8 ∧
  (∀ k, k ≠ uuid8 → dict_get k (sessions w') = dict_get k (sessions w)) ∧
  (dict_get uuid8 (sessions w) = None →
   ∀ k s0, dict_get k (sessions w) = Some s0 → dict_get k (sessions w') = Some s0).
Proof.
  intros Hnd [(e & ? & _)|(s1 & [= <-] & -> & Hid & _)]%create_session_inv; [done |].
  cbn [sessions set_loop_tasks set_sessions]. split_and!.
  - by apply NoDup_dict_set.
  - by rewrite dict_get_set, decide_True.
  - done.
  - intros k Hk. by rewrite dict_get_set, decide_False.
  - intros Hfresh k s0 Hk. rewrite dict_get_set. case_decide; [congruence | done].
Qed.
End create.



Lemma create_keeps_other_sessions_witness :
  ∃ s, dict_get "abcd1234"
         (sessions (run demo_digest
            [ACreate (Some host_body) None None "ffff0000" 20 21 22] lobby)) = Some s
       ∧ host_steam_id s = "S1".
Proof.
  eassert (SessionManager.create_session demo_digest "ffff0000" 20 21 22 host_body lobby
           = (Ok _, _)) as Hrun by (vm_compute; reflexivity).
  destruct (create_keeps_other_sessions demo_digest lobby _ _ _ _ _ _ _
              ltac:(vm_compute; repeat constructor; set_solver) Hrun)
    as (_ & _ & _ & _ & Hkept).
  eexists. split; [apply Hkept; vm_compute; reflexivity | reflexivity].
Defined.

(** C7 does not hold as stated: a create that draws the id of a live
    session puts the new session in its place. *)
Lemma create_same_id_replaces :
  let w2 := run demo_digest
              [ACreate (Some {[ "host_steam_id" := VStr "S2" ]}) None None
                 "abcd1234" 20 21 22] lobby in
  (∃ s, dict_get "abcd1234" (sessions lobby) = Some s ∧ host_steam_id s = "S1") ∧
  (∃ s, dict_get "abcd1234" (sessions w2) = Some s ∧ host_steam_id s = "S2") ∧
  dict_keys (sessions w2) = ["abcd1234"].
Proof. split_and!; [eexists; split; reflexivity | eexists; split; reflexivity | reflexivity]. Qed.

(** ** Broadcasts are scheduled, not sent, by the mutation *)

Section broadcast.
Variable sha256_hex : string → string.


(** When the loop runs a pending coroutine it takes the oldest one, and
    the envelope goes to every socket on which [send_str] does not
    raise. *)
Lemma run_next_task_oldest_first w ev rest now fails :
  loop_tasks w = ev :: rest →
  let w' := (run_next_task now fails w).2 in
  loop_tasks w' = rest ∧
  wire w' =
    wire w ++ ((λ ws, (ws, mkEnvelope (event_type ev) (event_data ev) now)) <$>
                 filter (λ ws, fails ws = false) (elements (websockets w))).
Proof. intros Hq. unfold run_next_task. by rewrite Hq. Qed.
End broadcast.



(** ** The sweep *)

Section sweep.
Implicit Types (w : world) (d : list (string * GameSession)).

Lemma dict_get_pop_all k d ids :
  NoDup (dict_keys d) →
  dict_get k (foldl (λ d k, dict_pop k d) d ids) =
  if decide (k ∈ ids) then None else dict_get k d.
Proof.
  revert d. induction ids as [|a ids IH]; intros d Hd; cbn [foldl].
  - rewrite decide_False; [done | apply not_elem_of_nil].
  - rewrite IH by by apply NoDup_dict_pop. rewrite dict_get_pop by done.
    destruct (decide (k ∈ ids)) as [Hin|Hin], (decide (a = k)) as [Heq|Hne],
      (decide (k ∈ a :: ids)) as [Hin'|Hin']; try done; exfalso.
    + apply Hin'. by right.
    + apply Hin'. by right.
    + apply Hin'. rewrite Heq. left.
    + apply elem_of_cons in Hin' as [Heq|?]; [by symmetry in Heq | done].
Qed.

(** Deleting, one after the other, ids that are all live *)
Lemma delete_each_eq ids w :
  NoDup (dict_keys (sessions w)) →
  NoDup ids →
  (∀ k, k ∈ ids → is_Some (dict_get k (sessions w))) →
  for_each ids (λ sid, SessionManager.delete_session sid;; ret tt) w =
  (Ok tt,
   set_loop_tasks (loop_tasks w ++ (deleted_event <$> ids))
     (set_sessions (foldl (λ d k, dict_pop k d) (sessions w) ids) w)).
Proof.
  revert w. induction ids as [|a ids IH]; intros w Hd Hids Hlive.
  - simpl. mrun. rewrite set_sessions_same. destruct w; simpl. by rewrite app_nil_r.
  - apply NoDup_cons in Hids as [Ha Hids].
    destruct (Hlive a) as [s Hs]; [left |].
    cbn [for_each]. unfold mbind at 1, M_bind at 1. unfold mbind at 1, M_bind at 1.
    rewrite delete_session_eq, Hs. unfold ret at 1, mret, M_ret.
    rewrite IH; cbn [sessions set_loop_tasks set_sessions loop_tasks].
    + rewrite <-app_assoc. done.
    + by apply NoDup_dict_pop.
    + done.
    + intros k Hk. rewrite dict_get_pop by done.
      rewrite decide_False by (intros ->; done). apply Hlive. by right.
Qed.

Lemma elem_of_stale_ids w now k :
  NoDup (dict_keys (sessions w)) →
  k ∈ SessionManager.stale_ids w now ↔
  ∃ s, dict_get k (sessions w) = Some s ∧
       SessionManager.is_stale (session_timeout w) now s = true.
Proof.
  intros Hd. unfold SessionManager.stale_ids.
  rewrite list_elem_of_fmap. split.
  - intros ([k' s] & -> & [Hst Hin]%list_elem_of_filter). exists s.
    split; [by apply dict_elem_get | done].
  - intros (s & Hs%dict_get_Some_elem & Hst). exists (k, s).
    split; [done |]. by apply list_elem_of_filter.
Qed.

Lemma NoDup_stale_ids w now :
  NoDup (dict_keys (sessions w)) → NoDup (SessionManager.stale_ids w now).
Proof.
  intros Hd. eapply sublist_NoDup; [exact Hd |].
  unfold SessionManager.stale_ids, dict_keys. apply fmap_sublist, sublist_filter.
Qed.

Lemma stale_ids_eq w now :
  SessionManager.stale_ids w now =
  (filter (λ kv, (session_timeout w * 1000000 < now - last_heartbeat kv.2)%Z)
     (sessions w)).*1.
Proof.
  unfold SessionManager.stale_ids. f_equal. apply list_filter_iff.
  intros [k s]. unfold SessionManager.is_stale. cbn. apply Z.ltb_lt.
Qed.

(** C8. One pass of the sweep returns normally.  Every session for which
    [now - last_heartbeat] exceeds [session_timeout] seconds when the pass
    starts is gone from the registry, removed by [delete_session], whose
    [session_deleted] broadcast for that id is scheduled; every session
    for which it does not is still there, unchanged.  The scheduled
    broadcasts are exactly those of the ids past the timeout, in dict
    order, and the timeout itself is not touched.  Times are in
    microseconds. *)
Theorem sweep_removes_exactly_stale w now :
  NoDup (dict_keys (sessions w)) →
  ∃ w',
    SessionManager.cleanup_stale_sessions now w = (Ok tt, w') ∧
    (∀ sid s,
       dict_get sid (sessions w) = Some s →
       ((session_timeout w * 1000000 < now - last_heartbeat s)%Z →
        dict_get sid (sessions w') = None ∧ deleted_event sid ∈ loop_tasks w') ∧
       ((now - last_heartbeat s ≤ session_timeout w * 1000000)%Z →
        dict_get sid (sessions w') = Some s)) ∧
    (∀ sid, dict_get sid (sessions w) = None → dict_get sid (sessions w') = None) ∧
    loop_tasks w' =
      loop_tasks w ++
      (deleted_event <$>
         (filter (λ kv, (session_timeout w * 1000000 < now - last_heartbeat kv.2)%Z)
            (sessions w)).*1) ∧
    session_timeout w' = session_timeout w ∧
    wire w' = wire w.
Proof.
  intros Hd. unfold SessionManager.cleanup_stale_sessions.
  rewrite delete_each_eq; [| done | by apply NoDup_stale_ids |].
  2:{ intros k (s & Hs & _)%elem_of_stale_ids; [by eexists | done]. }
  eexists. split; [done |].
  cbn [sessions set_loop_tasks set_sessions loop_tasks wire session_timeout].
  split_and!; [| | by rewrite stale_ids_eq | done..].
  - intros sid s Hs. rewrite dict_get_pop_all by done. split.
    + intros Hold.
      assert (sid ∈ SessionManager.stale_ids w now) as Hin.
      { apply elem_of_stale_ids; [done |]. exists s. split; [done |].
        unfold SessionManager.is_stale. by apply Z.ltb_lt. }
      rewrite decide_True by done. split; [done |].
      apply elem_of_app. right. by apply list_elem_of_fmap_2.
    + intros Hfresh. rewrite decide_False; [done |].
      intros (s' & Hs' & Hst)%elem_of_stale_ids; [| done].
      assert (s' = s) as -> by congruence.
      unfold SessionManager.is_stale in Hst. apply Z.ltb_lt in Hst. lia.
  - intros sid Hs. rewrite dict_get_pop_all by done. by case_decide.
Qed.
End sweep.

Lemma sweep_removes_exactly_stale_witness :
  let w := run demo_digest
             [ACreate (Some host_body) (Some "203.0.113.9") None "beef5678"
                100000000 100000000 100000000] lobby in
  ∃ w' s,
    SessionManager.cleanup_stale_sessions 120000012 w = (Ok tt, w') ∧
    dict_get "abcd1234" (sessions w') = None ∧
    dict_get "beef5678" (sessions w') = Some s ∧
    last_heartbeat s = 100000000%Z.
Proof.
  intros w.
  destruct (sweep_removes_exactly_stale w 120000012) as (w' & Hrun & Hall & _).
  { vm_compute. repeat constructor; set_solver. }
  eassert (dict_get "abcd1234" (sessions w) = Some _) as Hold by (vm_compute; reflexivity).
  eassert (dict_get "beef5678" (sessions w) = Some _) as Hnew by (vm_compute; reflexivity).
  eexists w', _. split; [exact Hrun |]. split.
  - apply (Hall _ _ Hold). vm_compute. reflexivity.
  - split; [apply (Hall _ _ Hnew); vm_compute; discriminate |].
    vm_compute. reflexivity.
Defined.

(** ** Counters and the player list *)

Section counters.
Variable sha256_hex : string → string.
Implicit Types (w : world) (s : GameSession) (ps : list Player).










End counters.



(** ** Well-formed worlds

    Every world the server reaches through requests whose counter fields
    are numbers is well formed: ids are not repeated, the host entry heads
    each player list and the counters hold numbers. *)

Section preservation.
Context (I : world → Prop).

Lemma preserves_ret {A} (a : A) : preserves I (ret a).
Proof. by intros w. Qed.

Lemma preserves_lift {A} (r : res A) : preserves I (lift r).
Proof. by intros w. Qed.

Lemma preserves_bind {A B} (m : M A) (k : A → M B) :
  preserves I m → (∀ a, preserves I (k a)) → preserves I (m ≫= k).
Proof.
  intros Hm Hk w Hw. unfold mbind, M_bind. specialize (Hm w Hw).
  destruct (m w) as [[a|e] w1]; [by apply Hk | done].
Qed.

Lemma preserves_modify (f : world → world) :
  (∀ w, I w → I (f w)) → preserves I (modify f).
Proof. intros Hf w Hw. by apply Hf. Qed.

Lemma preserves_for_each {A} (xs : list A) (body : A → M unit) :
  (∀ x, preserves I (body x)) → preserves I (for_each xs body).
Proof.
  intros Hbody. induction xs as [|x xs IH]; simpl; [apply preserves_ret |].
  apply preserves_bind; [apply Hbody | by intros _].
Qed.
End preservation.

Section well_formed.
Variable sha256_hex : string → string.
Implicit Types (w : world) (s : GameSession).

Lemma world_wf_sessions w w' : sessions w' = sessions w → world_wf w → world_wf w'.
Proof. unfold world_wf. by intros ->. Qed.

Lemma world_wf_mutate w sid f :
  (∀ s, dict_get sid (sessions w) = Some s → session_wf s → session_wf (f s)) →
  world_wf w → world_wf (set_sessions (dict_mutate sid f (sessions w)) w).
Proof.
  intros Hf [Hnd Hall]. split; cbn [sessions set_sessions].
  - by apply NoDup_dict_mutate.
  - by apply (Forall_dict_mutate session_wf).
Qed.

Lemma world_wf_pop w sid :
  world_wf w → world_wf (set_sessions (dict_pop sid (sessions w)) w).
Proof.
  intros [Hnd Hall]. split; cbn [sessions set_sessions].
  - by apply NoDup_dict_pop.
  - by apply (Forall_dict_pop session_wf).
Qed.

Lemma world_wf_set w sid s :
  session_wf s → world_wf w → world_wf (set_sessions (dict_set sid s (sessions w)) w).
Proof.
  intros Hs [Hnd Hall]. split; cbn [sessions set_sessions].
  - by apply NoDup_dict_set.
  - by apply (Forall_dict_set session_wf).
Qed.

Lemma world_wf_init : world_wf init.
Proof. split; [apply NoDup_nil_2 | apply Forall_nil_2]. Qed.

Lemma pop_first_keeps_host steam p0 ps removed rest :
  pop_first steam (p0 :: ps) = Some (removed, rest) →
  is_host p0 = true → is_host removed = false →
  ∃ rest', rest = p0 :: rest'.
Proof.
  simpl. destruct (str_eq_value (steam_id p0) steam).
  - intros [= <- <-]. congruence.
  - destruct (pop_first steam ps) as [[r rest']|]; [| done].
    intros [= <- <-]. eauto.
Qed.

Lemma create_session_wf uuid8 t1 t2 t3 data :
  preserves world_wf (SessionManager.create_session sha256_hex uuid8 t1 t2 t3 data).
Proof.
  intros w Hw.
  destruct (SessionManager.create_session _ _ _ _ _ _ w) as [r w'] eqn:Hrun.
  apply create_session_inv in Hrun
    as [(e & -> & ->)|(s & -> & -> & _ & _ & _ & _ & _ & Hcp & Hcs & Hpl)]; [done |].
  cbn [snd]. eapply world_wf_sessions; [| apply (world_wf_set w uuid8 s); [| done]]; [done |].
  split.
  - unfold host_first. by rewrite Hpl.
  - unfold typed_counters. rewrite Hcp, Hcs. by split; eexists.
Qed.

Lemma update_session_wf sid now data :
  typed_body data → preserves world_wf (SessionManager.update_session sid now data).
Proof.
  intros [Hp Hsp] w Hw. destruct (dict_get sid (sessions w)) as [s|] eqn:Hs.
  2:{ by rewrite update_session_absent. }
  rewrite (update_session_eq w sid s now data Hs). cbn [snd].
  eapply world_wf_sessions; [| apply world_wf_mutate; [| exact Hw]]; [done |].
  intros s0 _ [Hhost [Htp Hts]]. rewrite update_loop_result. split; [done |].
  unfold typed_counters, dget. cbn. split.
  - destruct (data !! "current_pilots") eqn:E; [by apply Hp | done].
  - destruct (data !! "current_spectators") eqn:E; [by apply Hsp | done].
Qed.

Lemma heartbeat_wf sid now : preserves world_wf (SessionManager.heartbeat sid now).
Proof.
  intros w Hw. unfold SessionManager.heartbeat. mrun.
  destruct (dict_get sid (sessions w)); [| done]. cbn [snd].
  apply world_wf_mutate; [| done]. by intros s0 _ [? ?].
Qed.

Lemma delete_session_wf sid : preserves world_wf (SessionManager.delete_session sid).
Proof.
  intros w Hw. rewrite delete_session_eq.
  destruct (dict_get sid (sessions w)); [| done]. cbn [snd].
  eapply world_wf_sessions; [| by apply (world_wf_pop w sid)]. done.
Qed.

Lemma session_wf_counter role c s :
  is_Some (as_num c) → session_wf s → session_wf (set_counter role c s).
Proof.
  intros Hc [Hhost [Hp Hsp]]. unfold set_counter.
  destruct role; (split; [done |]); by split.
Qed.

Lemma session_wf_append p ps s :
  ps = players s → session_wf s → session_wf (set_players (ps ++ [p]) s).
Proof.
  intros -> [Hhost Hty]. split; [| done]. unfold host_first in *. cbn.
  by destruct (players s).
Qed.

Lemma add_player_wf sid data spec t :
  preserves world_wf (SessionManager.add_player sid data spec t).
Proof.
  intros w Hw. destruct (dict_get sid (sessions w)) as [s|] eqn:Hs.
  2:{ by rewrite add_player_absent. }
  rewrite (add_player_eq w sid s data spec t Hs).
  destruct (if truthy spec then _ else _) as [[]|]; [done | | done].
  unfold py_add1. destruct (as_num (counter_of _ s)) as [n|]; [| done]. cbn zeta.
  assert (world_wf (set_sessions
            (dict_mutate sid (set_counter (truthy spec) (VInt (n + 1))) (sessions w)) w))
    as Hcounted.
  { apply world_wf_mutate; [| done]. intros s0 _. by apply session_wf_counter. }
  destruct (data !! "steam_id") as [[| | |x]|]; try done. cbn [snd].
  eapply world_wf_sessions; [| apply world_wf_mutate; [| exact Hw]]; [done |].
  intros s0 _ Hs0. apply session_wf_append; [by destruct (truthy spec) |].
  by apply session_wf_counter.
Qed.

Lemma remove_player_wf sid steam :
  preserves world_wf (SessionManager.remove_player sid steam).
Proof.
  intros w Hw. destruct (dict_get sid (sessions w)) as [s|] eqn:Hs.
  2:{ by rewrite remove_player_absent. }
  rewrite (remove_player_eq w sid s steam Hs).
  pose proof (Forall_dict_get _ _ _ _ (proj2 Hw) Hs) as [Hhost [[np Hnp] [ns Hns]]].
  destruct (pop_first steam (players s)) as [[removed rest]|] eqn:Hpop; [| done].
  cbn zeta.
  assert (∃ n, as_num (counter_of (truthy (is_spectator removed)) s) = Some n)
    as [n Hn] by (unfold counter_of; destruct (truthy _); eauto).
  unfold py_sub1. rewrite Hn.
  destruct (is_host removed) eqn:Hrem; cbn [snd].
  { eapply world_wf_sessions; [| by apply (world_wf_pop w sid)]. done. }
  eapply world_wf_sessions; [| apply world_wf_mutate; [| exact Hw]]; [done |].
  intros s0 Hs0 _. assert (s0 = s) as -> by congruence.
  apply session_wf_counter; [by eexists |].
  split; [| done]. unfold host_first in *. cbn.
  destruct (players s) as [|p0 ps]; [done |].
  destruct Hhost as (Hh & Hid & Hsp).
  by destruct (pop_first_keeps_host _ _ _ _ _ Hpop Hh Hrem) as [rest' ->].
Qed.

Lemma cleanup_wf now : preserves world_wf (SessionManager.cleanup_stale_sessions now).
Proof.
  intros w Hw. unfold SessionManager.cleanup_stale_sessions.
  apply (preserves_for_each world_wf); [| done].
  intros sid. apply preserves_bind; [apply delete_session_wf | intros; apply preserves_ret].
Qed.

Lemma step_wf a w : typed_action a → world_wf w → world_wf (step sha256_hex a w).
Proof.
  intros Ha Hw. destruct a as [req peer fwd uuid8 t1 t2 t3|sid req now|sid|sid now
                               |sid req t|sid req|now|now fails|ws now fl|ws]; cbn [step].
  - unfold create_session. destruct req as [data|]; [| done].
    destruct (data !! "host_steam_id"); [| done].
    apply preserves_bind; [apply create_session_wf | intros; apply preserves_ret | done].
  - unfold update_session. destruct req as [data|]; [| done].
    apply preserves_bind; [by apply update_session_wf | | done].
    intros [?|]; apply preserves_ret.
  - unfold delete_session.
    apply preserves_bind; [apply delete_session_wf | | done].
    intros []; apply preserves_ret.
  - unfold heartbeat_session.
    apply preserves_bind; [apply heartbeat_wf | | done].
    intros []; apply preserves_ret.
  - unfold join_session. destruct req as [data|]; [| done].
    apply preserves_bind; [by intros ? | | done].
    intros [s|]; [| apply preserves_ret].
    apply preserves_bind; [apply preserves_lift |].
    intros []; [| apply preserves_ret].
    apply preserves_bind; [apply add_player_wf |].
    intros [?|]; apply preserves_ret.
  - unfold leave_session. destruct req as [data|]; [| done].
    destruct (negb _); [done |].
    apply preserves_bind; [apply remove_player_wf | | done].
    intros []; apply preserves_ret.
  - by apply cleanup_wf.
  - unfold run_next_task. by destruct (loop_tasks w).
  - unfold websocket_connect.
    apply preserves_bind; [by intros ? | | done]. intros _.
    apply preserves_bind; [by intros ? |]. intros ds.
    destruct fl; [apply preserves_lift | by intros ?].
  - done.
Qed.

Lemma run_wf acts w :
  Forall typed_action acts → world_wf w → world_wf (run sha256_hex acts w).
Proof.
  intros Hacts. revert w. induction Hacts as [|a acts Ha _ IH]; intros w Hw; [done |].
  apply IH. by apply step_wf.
Qed.
End well_formed.

(** ** Leaving: the host, and repeated identities *)

Section leave.
Variable sha256_hex : string → string.
Implicit Types (w : world) (s : GameSession) (ps : list Player).

Lemma host_leave_in_wf w sid s :
  world_wf w →
  dict_get sid (sessions w) = Some s →
  ∃ w',
    SessionManager.remove_player sid (VStr (host_steam_id s)) w = (Ok true, w') ∧
    dict_get sid (sessions w') = None ∧
    sessions w' = dict_pop sid (sessions w) ∧
    loop_tasks w' = loop_tasks w ++ [deleted_event sid].
Proof.
  intros [Hnd Hall] Hs.
  pose proof (Forall_dict_get _ _ _ _ Hall Hs) as [Hhost [[np Hnp] _]].
  rewrite (remove_player_eq w sid s _ Hs).
  unfold host_first in Hhost. destruct (players s) as [|p0 ps]; [done |].
  destruct Hhost as (Hh & Hid & Hsp).
  cbn [pop_first str_eq_value]. rewrite Hid, String.eqb_refl. cbn zeta.
  unfold py_sub1, counter_of. rewrite Hsp, Hnp, Hh.
  eexists. split; [done |]. cbn [sessions set_loop_tasks set_sessions loop_tasks].
  split_and!; [| done..]. by rewrite dict_get_pop, decide_True.
Qed.

(** In every world the server reaches through requests whose counter
    fields are numbers, for every live session, [remove_player] with the
    host's [steam_id] returns true and leaves the registry without that
    session: a later lookup of the id finds nothing and the handler
    answers 404, the registry is the old one less that entry, so the
    session's player list went with it and every other session is as
    before; the [session_deleted] broadcast is scheduled. *)
Theorem host_leave_deletes_session acts sid s :
  Forall typed_action acts →
  let w := run sha256_hex acts init in
  dict_get sid (sessions w) = Some s →
  ∃ w',
    SessionManager.remove_player sid (VStr (host_steam_id s)) w = (Ok true, w') ∧
    SessionManager.get_session sid w' = (Ok None, w') ∧
    get_session sid w' = (Ok (json_response (JError "Session not found") 404), w') ∧
    sessions w' = dict_pop sid (sessions w) ∧
    (∀ k, k ≠ sid → dict_get k (sessions w') = dict_get k (sessions w)) ∧
    loop_tasks w' = loop_tasks w ++ [deleted_event sid].
Proof.
  intros Hacts w Hs.
  assert (world_wf w) as Hw by (apply run_wf; [done | apply world_wf_init]).
  destruct (host_leave_in_wf w sid s Hw Hs) as (w' & Hrun & Hgone & Hpop & Htasks).
  exists w'. split_and!; try done.
  - unfold SessionManager.get_session. by rewrite Hgone.
  - unfold get_session. mrun. by rewrite Hgone.
  - intros k Hk. rewrite Hpop, dict_get_pop by apply Hw. by rewrite decide_False.
Qed.

Lemma pop_first_exists x ps :
  (∃ p, p ∈ ps ∧ steam_id p = x) →
  ∃ first rest, pop_first (VStr x) ps = Some (first, rest) ∧ steam_id first = x.
Proof.
  intros (p & Hin & Hid). induction ps as [|q ps IH]; [by apply elem_of_nil in Hin |].
  cbn [pop_first str_eq_value]. destruct (String.eqb_spec (steam_id q) x) as [Hq|Hq].
  - by eexists _, _.
  - apply elem_of_cons in Hin as [->|Hin]; [done |].
    destruct (IH Hin) as (first & rest & -> & Hf). by eexists _, _.
Qed.

Lemma pop_first_app steam ps p first rest :
  pop_first steam ps = Some (first, rest) →
  pop_first steam (ps ++ [p]) = Some (first, rest ++ [p]).
Proof.
  revert rest. induction ps as [|q ps IH]; intros rest; [done |].
  cbn [pop_first app]. destruct (str_eq_value (steam_id q) steam).
  - by intros [= <- <-].
  - destruct (pop_first steam ps) as [[r rest']|]; [| done].
    intros [= <- <-]. by rewrite (IH rest' eq_refl).
Qed.

(** C10, as the code has it.  On a session whose two counters hold
    numbers and which has room for the requested role, a join whose
    [steam_id] is already in the player list succeeds and appends a
    second entry with that [steam_id].  A leave with that [steam_id] then
    pops the first matching entry, which is one of the old list: when
    that entry is not a host entry, the session stays and its list is the
    old one less that entry, followed by the new entry; when it is, the
    whole session is deleted.  Where the host entry heads the list, the
    host's own [steam_id] is such a case. *)
Theorem duplicate_join_then_leave w sid s data spec t x :
  NoDup (dict_keys (sessions w)) →
  dict_get sid (sessions w) = Some s →
  typed_counters s →
  data !! "steam_id" = Some (VStr x) →
  (∃ p, p ∈ players s ∧ steam_id p = x) →
  (if truthy spec then is_spectator_full s else is_full s) = Ok false →
  ∃ p w1 s1 first rest w2,
    SessionManager.add_player sid data spec t w = (Ok (Some p), w1) ∧
    steam_id p = x ∧ is_host p = false ∧
    dict_get sid (sessions w1) = Some s1 ∧
    players s1 = players s ++ [p] ∧
    pop_first (VStr x) (players s) = Some (first, rest) ∧
    steam_id first = x ∧
    SessionManager.remove_player sid (VStr x) w1 = (Ok true, w2) ∧
    (if is_host first
     then dict_get sid (sessions w2) = None
     else ∃ s2, dict_get sid (sessions w2) = Some s2 ∧ players s2 = rest ++ [p]) ∧
    (host_first s → x = host_steam_id s → is_host first = true).
Proof.
  intros Hnd Hs [[np Hnp] [ns Hns]] Hdata Hdup Hroom.
  destruct (pop_first_exists x (players s) Hdup) as (first & rest & Hpop & Hfirst).
  pose proof (add_player_eq w sid s data spec t Hs) as Hadd.
  rewrite Hroom, Hdata in Hadd. unfold py_add1 in Hadd.
  assert (∃ n, as_num (counter_of (truthy spec) s) = Some n) as [n Hn]
    by (unfold counter_of; destruct (truthy spec); eauto).
  rewrite Hn in Hadd. cbn zeta in Hadd.
  set (p := {| steam_id := x;
               name := dget data "name" (VStr ("Player_" +:+ last6 x));
               avatar_url := dget data "avatar_url" (VStr "");
               is_host := false; is_spectator := spec; joined_at := t |}) in *.
  set (s1 := set_players (players s ++ [p]) (set_counter (truthy spec) (VInt (n + 1)) s)).
  match type of Hadd with _ = (_, ?w) => set (w1 := w) in * end.
  assert (dict_get sid (sessions w1) = Some s1) as Hs1.
  { subst w1. cbn [sessions set_loop_tasks set_sessions].
    rewrite dict_get_mutate, decide_True, Hs by done. cbn [fmap option_fmap option_map].
    subst s1. by destruct (truthy spec). }
  assert (players s1 = players s ++ [p]) as Hpl1 by (subst s1; by destruct (truthy spec)).
  assert (NoDup (dict_keys (sessions w1))) as Hnd1.
  { subst w1. cbn [sessions set_loop_tasks set_sessions].
    by apply NoDup_dict_mutate. }
  pose proof (remove_player_eq w1 sid s1 (VStr x) Hs1) as Hrem.
  rewrite Hpl1, (pop_first_app _ _ p _ _ Hpop) in Hrem. cbn zeta in Hrem.
  assert (∃ m, as_num (counter_of (truthy (is_spectator first)) s1) = Some m) as [m Hm].
  { subst s1. unfold counter_of, set_counter.
    destruct (truthy (is_spectator first)), (truthy spec); cbn; eauto. }
  unfold py_sub1 in Hrem. rewrite Hm in Hrem.
  assert (host_first s → x = host_steam_id s → is_host first = true) as Hhead.
  { unfold host_first. intros Hhost ->. destruct (players s) as [|p0 ps]; [done |].
    destruct Hhost as (Hh & Hid & _). cbn [pop_first str_eq_value] in Hpop.
    rewrite Hid, String.eqb_refl in Hpop. by simplify_eq. }
  exists p, w1, s1, first, rest.
  destruct (is_host first) eqn:Hhost.
  - eexists. split_and!; try done.
    cbn [sessions set_loop_tasks set_sessions]. by rewrite dict_get_pop, decide_True.
  - eexists. split_and!; try done.
    cbn [sessions set_loop_tasks set_sessions]. eexists.
    rewrite dict_get_mutate, decide_True, Hs1 by done. split; [done |].
    by destruct (truthy (is_spectator first)).
Qed.
End leave.

Lemma host_leave_deletes_session_witness :
  ∃ w',
    SessionManager.remove_player "abcd1234" (VStr "S1") lobby = (Ok true, w') ∧
    SessionManager.get_session "abcd1234" w' = (Ok None, w').
Proof.
  eassert (dict_get "abcd1234" (sessions lobby) = Some _) as Hs by (vm_compute; reflexivity).
  destruct (host_leave_deletes_session demo_digest
              [ACreate (Some host_body) (Some "203.0.113.5") None "abcd1234" 10 11 12]
              "abcd1234" _ ltac:(by repeat constructor) Hs)
    as (w' & Hrun & Hget & _).
  exists w'. split; [exact Hrun | exact Hget].
Defined.

(** C5 fails once a counter holds a str, which an update stores
    unchecked.  After an update with [current_pilots: many], the leave of
    host [S1] pops the host entry and then raises on the decrement,
    before [delete_session] is reached: the session stays in the
    registry, without its host entry, and a get of its id answers 200. *)
Theorem untyped_counter_blocks_host_leave :
  let w := run demo_digest
             [AUpdate "abcd1234" (Some {[ "current_pilots" := VStr "many" ]}) 30] lobby in
  let out := leave_session "abcd1234" (Some (join_body "S1")) w in
  (∃ s, dict_get "abcd1234" (sessions w) = Some s ∧ host_steam_id s = "S1" ∧
        steam_id <$> players s = ["S1"]) ∧
  SessionManager.remove_player "abcd1234" (VStr "S1") w = (Raise TypeError, out.2) ∧
  out.1 = Raise TypeError ∧
  (∃ s, dict_get "abcd1234" (sessions out.2) = Some s ∧ players s = []) ∧
  ∃ r, get_session "abcd1234" out.2 = (Ok r, out.2) ∧ http_status r = 200%Z.
Proof.
  split_and!.
  - eexists. split_and!; vm_compute; reflexivity.
  - vm_compute. reflexivity.
  - vm_compute. reflexivity.
  - eexists. split; vm_compute; reflexivity.
  - eexists. split; vm_compute; reflexivity.
Qed.

Lemma duplicate_join_then_leave_witness :
  let w := run demo_digest [AJoin "abcd1234" (Some (join_body "P2")) 20] lobby in
  ∃ p w1 w2 s2,
    SessionManager.add_player "abcd1234" (join_body "P2") (VBool false) 30 w
      = (Ok (Some p), w1) ∧
    SessionManager.remove_player "abcd1234" (VStr "P2") w1 = (Ok true, w2) ∧
    dict_get "abcd1234" (sessions w2) = Some s2 ∧
    steam_id <$> players s2 = ["S1"; "P2"].
Proof.
  intros w.
  eassert (dict_get "abcd1234" (sessions w) = Some _) as Hs by (vm_compute; reflexivity).
  assert (NoDup (dict_keys (sessions w))) as Hnd
    by (vm_compute; repeat constructor; set_solver).
  destruct (duplicate_join_then_leave w "abcd1234" _ (join_body "P2") (VBool false) 30 "P2"
              Hnd Hs)
    as (p & w1 & s1 & first & rest & w2 & Hadd & Hp & _ & _ & _ & Hpop & _ & Hrem & Hend & _).
  { split; vm_compute; eexists; reflexivity. }
  { reflexivity. }
  { eexists. split; [right; left | reflexivity]. }
  { vm_compute. reflexivity. }
  vm_compute in Hpop. injection Hpop as <- <-.
  cbn [is_host] in Hend. destruct Hend as (s2 & Hs2 & Hpl2).
  exists p, w1, w2, s2. split_and!; [exact Hadd | exact Hrem | exact Hs2 |].
  rewrite Hpl2. cbn. by rewrite Hp.
Defined.

(** C10 does not hold as stated when the repeated identity is the host's:
    the join appends a second entry for [S1], and the leave, finding the
    host entry first, deletes the session and the duplicate with it. *)
Lemma duplicate_of_host_leaves_nothing :
  let w1 := run demo_digest [AJoin "abcd1234" (Some (join_body "S1")) 20] lobby in
  let w2 := run demo_digest [ALeave "abcd1234" (Some (join_body "S1"))] w1 in
  (∃ s1, dict_get "abcd1234" (sessions w1) = Some s1 ∧
         steam_id <$> players s1 = ["S1"; "S1"]) ∧
  SessionManager.remove_player "abcd1234" (VStr "S1") w1 = (Ok true, w2) ∧
  sessions w2 = [].
Proof.
  split_and!; [| vm_compute; reflexivity..].
  eexists; split; [vm_compute; reflexivity | reflexivity].
Qed.

(** ** What every reachable world has

    Whatever the requests carry, the dict never holds an id twice and the
    timeout stays the 120 seconds of start-up: the hypothesis of the sweep
    theorem holds in every world the server reaches. *)

Section frame.
Variable sha256_hex : string → string.
Context (I : world → Prop).
Hypothesis I_mutate : ∀ w sid f, I w → I (set_sessions (dict_mutate sid f (sessions w)) w).
Hypothesis I_set : ∀ w sid s, I w → I (set_sessions (dict_set sid s (sessions w)) w).
Hypothesis I_pop : ∀ w sid, I w → I (set_sessions (dict_pop sid (sessions w)) w).
Hypothesis I_tasks : ∀ w q, I w → I (set_loop_tasks q w).
Hypothesis I_sockets : ∀ w ws out, I w → I (set_sockets ws out w).

Lemma preserves_get_session sid : preserves I (SessionManager.get_session sid).
Proof. by intros w. Qed.

Ltac preserve :=
  repeat match goal with
    | |- preserves _ (ret _) => apply preserves_ret
    | |- preserves _ (lift _) => apply preserves_lift
    | |- preserves _ (SessionManager.get_session _) => apply preserves_get_session
    | |- preserves _ (_ ≫= _) => apply preserves_bind; [| intros ?]
    | |- preserves _ (for_each _ _) => apply preserves_for_each; intros ?
    | |- preserves _ (modify _) => apply preserves_modify; intros ? ?; auto
    | |- preserves _ (match ?x with _ => _ end) => destruct x
    end.

Lemma create_session_frame uuid8 t1 t2 t3 data :
  preserves I (SessionManager.create_session sha256_hex uuid8 t1 t2 t3 data).
Proof. unfold SessionManager.create_session, create_task. preserve. Qed.

Lemma update_session_frame sid now data :
  preserves I (SessionManager.update_session sid now data).
Proof. unfold SessionManager.update_session, create_task, mutate. preserve. Qed.

Lemma heartbeat_frame sid now : preserves I (SessionManager.heartbeat sid now).
Proof. unfold SessionManager.heartbeat, mutate. preserve. Qed.

Lemma delete_session_frame sid : preserves I (SessionManager.delete_session sid).
Proof. unfold SessionManager.delete_session, create_task. preserve. Qed.

Lemma add_player_frame sid data spec t :
  preserves I (SessionManager.add_player sid data spec t).
Proof. unfold SessionManager.add_player, create_task, mutate. preserve. Qed.

Lemma remove_player_frame sid steam :
  preserves I (SessionManager.remove_player sid steam).
Proof.
  unfold SessionManager.remove_player, create_task, mutate.
  preserve; apply delete_session_frame.
Qed.

Lemma step_frame a w : I w → I (step sha256_hex a w).
Proof.
  intros Hw.
  destruct a as [req peer fwd uuid8 t1 t2 t3|sid req now|sid|sid now
                |sid req t|sid req|now|now fails|ws now fl|ws]; cbn [step];
    revert w Hw.
  - change (preserves I (create_session sha256_hex req peer fwd uuid8 t1 t2 t3)).
    unfold create_session. preserve. apply create_session_frame.
  - change (preserves I (update_session sid req now)).
    unfold update_session. preserve. apply update_session_frame.
  - change (preserves I (delete_session sid)).
    unfold delete_session. preserve. apply delete_session_frame.
  - change (preserves I (heartbeat_session sid now)).
    unfold heartbeat_session. preserve. apply heartbeat_frame.
  - change (preserves I (join_session sha256_hex sid req t)).
    unfold join_session. preserve. apply add_player_frame.
  - change (preserves I (leave_session sid req)).
    unfold leave_session. preserve. apply remove_player_frame.
  - intros w Hw. unfold SessionManager.cleanup_stale_sessions.
    apply (preserves_for_each I); [| done]. intros sid. preserve.
    apply delete_session_frame.
  - intros w Hw. unfold run_next_task. destruct (loop_tasks w); [done |].
    unfold SessionManager.broadcast_update, modify. cbn [snd]. auto.
  - change (preserves I (websocket_connect ws now fl)).
    unfold websocket_connect. preserve. by intros w.
  - change (preserves I (websocket_disconnect ws)).
    unfold websocket_disconnect. preserve.
Qed.

Lemma run_frame acts w : I w → I (run sha256_hex acts w).
Proof.
  revert w. induction acts as [|a acts IH]; intros w Hw; [done |].
  apply IH. by apply step_frame.
Qed.
End frame.

Lemma run_keys_NoDup sha256_hex acts :
  NoDup (dict_keys (sessions (run sha256_hex acts init))).
Proof.
  apply (run_frame sha256_hex (λ w, NoDup (dict_keys (sessions w)))); try done.
  - intros. by apply NoDup_dict_mutate.
  - intros. by apply NoDup_dict_set.
  - intros. by apply NoDup_dict_pop.
  - apply NoDup_nil_2.
Qed.

Lemma run_keeps_timeout sha256_hex acts :
  session_timeout (run sha256_hex acts init) = 120%Z.
Proof. by apply (run_frame sha256_hex (λ w, session_timeout w = 120%Z)). Qed.

(** * Further properties of the server *)

(** ** Heartbeat, delete, and requests that change nothing *)

Section quiet_requests.
Variable sha256_hex : string → string.
Implicit Types (w : world) (s : GameSession) (data : gmap string value).

(** X1. A heartbeat on a live session answers 200, assigns [last_heartbeat]
    and nothing else, leaves every other session as it was, and schedules
    no broadcast and writes to no socket. *)
Theorem heartbeat_only_touches_heartbeat w sid s now :
  dict_get sid (sessions w) = Some s →
  ∃ w',
    heartbeat_session sid now w = (Ok (json_response (JStatus "ok") 200), w') ∧
    dict_get sid (sessions w') = Some (set_last_heartbeat now s) ∧
    (∀ k, k ≠ sid → dict_get k (sessions w') = dict_get k (sessions w)) ∧
    dict_keys (sessions w') = dict_keys (sessions w) ∧
    loop_tasks w' = loop_tasks w ∧ wire w' = wire w ∧ websockets w' = websockets w.
Proof.
  intros Hs. unfold heartbeat_session, SessionManager.heartbeat. mrun. rewrite Hs.
  eexists. split; [done |]. cbn [sessions set_sessions loop_tasks wire websockets].
  split_and!; try done.
  - by rewrite dict_get_mutate, decide_True, Hs.
  - intros k Hk. by rewrite dict_get_mutate, decide_False.
  - apply dict_keys_mutate.
Qed.

(** X2. Deleting a live session answers 200, removes that session only and
    schedules its [session_deleted]; deleting it again answers 404 and
    changes nothing. *)
Theorem delete_then_delete_again w sid s :
  NoDup (dict_keys (sessions w)) →
  dict_get sid (sessions w) = Some s →
  ∃ w',
    delete_session sid w = (Ok (json_response (JStatus "deleted") 200), w') ∧
    dict_get sid (sessions w') = None ∧
    (∀ k, k ≠ sid → dict_get k (sessions w') = dict_get k (sessions w)) ∧
    loop_tasks w' = loop_tasks w ++ [deleted_event sid] ∧
    delete_session sid w' = (Ok (json_response (JError "Session not found") 404), w').
Proof.
  intros Hnd Hs. unfold delete_session. unfold mbind at 1, M_bind at 1.
  rewrite delete_session_eq, Hs. eexists. split; [done |].
  cbn [sessions set_sessions set_loop_tasks loop_tasks].
  assert (dict_get sid (dict_pop sid (sessions w)) = None) as Hgone
    by (by rewrite dict_get_pop, decide_True).
  split_and!; try done.
  - intros k Hk. by rewrite dict_get_pop, decide_False.
  - unfold mbind, M_bind. rewrite delete_session_eq.
    cbn [sessions set_sessions set_loop_tasks]. by rewrite Hgone.
Qed.

(** X3. A request that names an id that is not live is answered 404 and
    leaves the whole state as it was: get, update, delete, heartbeat, join
    and leave alike. *)
Theorem unknown_id_not_found w sid :
  dict_get sid (sessions w) = None →
  let not_found := json_response (JError "Session not found") 404 in
  get_session sid w = (Ok not_found, w) ∧
  (∀ data now, update_session sid (Some data) now w = (Ok not_found, w)) ∧
  delete_session sid w = (Ok not_found, w) ∧
  (∀ now, heartbeat_session sid now w = (Ok not_found, w)) ∧
  (∀ data t, join_session sha256_hex sid (Some data) t w = (Ok not_found, w)) ∧
  (∀ data, truthy (dget data "steam_id" VNone) = true →
     leave_session sid (Some data) w =
       (Ok (json_response (JError "Player not in session") 404), w)).
Proof.
  intros Hs not_found. split_and!.
  - unfold get_session. mrun. by rewrite Hs.
  - intros. unfold update_session, mbind, M_bind. by rewrite update_session_absent.
  - unfold delete_session, mbind, M_bind. by rewrite delete_session_eq, Hs.
  - intros. unfold heartbeat_session, SessionManager.heartbeat. mrun. by rewrite Hs.
  - intros. unfold join_session. mrun. by rewrite Hs.
  - intros data Hid. unfold leave_session. rewrite Hid. cbn [negb].
    unfold mbind, M_bind. by rewrite remove_player_absent.
Qed.


(** X5. A leave that names a live session but matches no entry of its
    player list answers 404 and changes nothing. *)
Theorem leave_of_stranger w sid s data :
  dict_get sid (sessions w) = Some s →
  truthy (dget data "steam_id" VNone) = true →
  (∀ p, p ∈ players s → str_eq_value (steam_id p) (dget data "steam_id" VNone) = false) →
  SessionManager.remove_player sid (dget data "steam_id" VNone) w = (Ok false, w) ∧
  leave_session sid (Some data) w =
    (Ok (json_response (JError "Player not in session") 404), w).
Proof.
  intros Hs Hid Hnone.
  assert (pop_first (dget data "steam_id" VNone) (players s) = None) as Hpop.
  { induction (players s) as [|p ps IH]; [done |]. cbn [pop_first].
    rewrite (Hnone p) by left. rewrite IH; [done |]. intros q Hq. apply Hnone. by right. }
  assert (SessionManager.remove_player sid (dget data "steam_id" VNone) w = (Ok false, w))
    as Hrem by (by rewrite (remove_player_eq w sid s _ Hs), Hpop).
  split; [done |]. unfold leave_session. rewrite Hid. cbn [negb].
  unfold mbind, M_bind. by rewrite Hrem.
Qed.
End quiet_requests.

Lemma heartbeat_only_touches_heartbeat_witness :
  ∃ w', heartbeat_session "abcd1234" 77 lobby = (Ok (json_response (JStatus "ok") 200), w') ∧
        loop_tasks w' = loop_tasks lobby.
Proof.
  eassert (dict_get "abcd1234" (sessions lobby) = Some _) as Hs by (vm_compute; reflexivity).
  destruct (heartbeat_only_touches_heartbeat lobby "abcd1234" _ 77 Hs)
    as (w' & Hrun & _ & _ & _ & Htasks & _).
  by exists w'.
Defined.

Lemma delete_then_delete_again_witness :
  ∃ w', delete_session "abcd1234" lobby = (Ok (json_response (JStatus "deleted") 200), w') ∧
        delete_session "abcd1234" w' =
          (Ok (json_response (JError "Session not found") 404), w').
Proof.
  eassert (dict_get "abcd1234" (sessions lobby) = Some _) as Hs by (vm_compute; reflexivity).
  destruct (delete_then_delete_again lobby "abcd1234" _
              ltac:(vm_compute; repeat constructor; set_solver) Hs)
    as (w' & Hrun & _ & _ & _ & Hagain).
  by exists w'.
Defined.

Lemma unknown_id_not_found_witness :
  get_session "00000000" lobby =
    (Ok (json_response (JError "Session not found") 404), lobby).
Proof.
  apply (unknown_id_not_found demo_digest lobby "00000000"). vm_compute. reflexivity.
Defined.


Lemma leave_of_stranger_witness :
  leave_session "abcd1234" (Some (join_body "P9")) lobby =
    (Ok (json_response (JError "Player not in session") 404), lobby).
Proof.
  eassert (dict_get "abcd1234" (sessions lobby) = Some _) as Hs by (vm_compute; reflexivity).
  apply (leave_of_stranger lobby "abcd1234" _ (join_body "P9") Hs);
    [vm_compute; reflexivity |].
  intros p Hp. apply list_elem_of_singleton in Hp as ->. vm_compute. reflexivity.
Defined.

(** ** Properties every session keeps

    A property of a session, possibly depending on the id it is stored
    under, that holds of the sessions [create_session] builds and survives
    each assignment the methods make, holds of every session after any
    sequence of actions. *)

Section keyed_forall.
Context {V : Type} (P : string → V → Prop).
Implicit Types (d : list (string * V)).

Lemma Forall_keyed_set k v d :
  Forall (λ kv, P kv.1 kv.2) d → P k v → Forall (λ kv, P kv.1 kv.2) (dict_set k v d).
Proof.
  intros Hd Hv. induction Hd as [|[k0 v0] d H0 Hd IH]; simpl.
  - by repeat constructor.
  - destruct (String.eqb_spec k k0) as [->|]; by constructor.
Qed.

Lemma Forall_keyed_pop k d :
  Forall (λ kv, P kv.1 kv.2) d → Forall (λ kv, P kv.1 kv.2) (dict_pop k d).
Proof.
  intros Hd. induction Hd as [|[k0 v0] d H0 Hd IH]; simpl; [constructor |].
  destruct (String.eqb k k0); [done | by constructor].
Qed.

Lemma Forall_keyed_mutate k f d :
  Forall (λ kv, P kv.1 kv.2) d →
  (∀ v, dict_get k d = Some v → P k v → P k (f v)) →
  Forall (λ kv, P kv.1 kv.2) (dict_mutate k f d).
Proof.
  intros Hd. induction Hd as [|[k0 v0] d H0 Hd IH]; simpl; [constructor |].
  destruct (String.eqb_spec k k0) as [->|]; intros Hf; constructor; simpl in *; auto.
Qed.

Lemma Forall_keyed_get k v d :
  Forall (λ kv, P kv.1 kv.2) d → dict_get k d = Some v → P k v.
Proof.
  intros Hd Hk%dict_get_Some_elem. rewrite Forall_forall in Hd. by apply (Hd (k, v)).
Qed.
End keyed_forall.

Section session_invariant.
Variable sha256_hex : string → string.
Variable P : string → GameSession → Prop.
Variable may_draw : string → Prop.
Hypothesis P_created :
  ∀ w uuid8 t1 t2 t3 data s w',
    may_draw uuid8 →
    SessionManager.create_session sha256_hex uuid8 t1 t2 t3 data w = (Ok s, w') →
    P uuid8 s.
Hypothesis P_setattr : ∀ k field v s, P k s → P k (setattr field v s).
Hypothesis P_heartbeat : ∀ k now s, P k s → P k (set_last_heartbeat now s).
Hypothesis P_counter : ∀ k role c s, P k s → P k (set_counter role c s).
Hypothesis P_append :
  ∀ k p s, is_host p = false → P k s → P k (set_players (players s ++ [p]) s).
Hypothesis P_pop :
  ∀ k steam removed rest s,
    pop_first steam (players s) = Some (removed, rest) → P k s → P k (set_players rest s).
Implicit Types (w : world) (s : GameSession).

Lemma every_session_sessions w w' :
  sessions w' = sessions w → every_session P w → every_session P w'.
Proof. unfold every_session. by intros ->. Qed.

Lemma every_session_mutate w sid f :
  (∀ s, dict_get sid (sessions w) = Some s → P sid s → P sid (f s)) →
  every_session P w →
  every_session P (set_sessions (dict_mutate sid f (sessions w)) w).
Proof. intros Hf Hw. by apply (Forall_keyed_mutate P). Qed.

Lemma create_session_keeps uuid8 t1 t2 t3 data :
  may_draw uuid8 →
  preserves (every_session P)
    (SessionManager.create_session sha256_hex uuid8 t1 t2 t3 data).
Proof.
  intros Hdraw w Hw.
  destruct (SessionManager.create_session _ _ _ _ _ _ w) as [r w'] eqn:Hrun.
  pose proof Hrun as Hinv.
  apply create_session_inv in Hinv as [(e & -> & ->)|(s & -> & -> & _)]; [done |].
  cbn [snd]. apply (Forall_keyed_set P); [done |]. by eapply P_created.
Qed.

Lemma update_loop_keeps k data fs s :
  P k s → P k (foldl (λ s f, apply_field data f s) s fs).
Proof.
  revert s. induction fs as [|f fs IH]; intros s Hs; [done |].
  cbn [foldl]. apply IH. unfold apply_field. destruct (data !! f); [| done].
  by apply P_setattr.
Qed.

Lemma update_session_keeps sid now data :
  preserves (every_session P) (SessionManager.update_session sid now data).
Proof.
  intros w Hw. destruct (dict_get sid (sessions w)) as [s|] eqn:Hs.
  2:{ by rewrite update_session_absent. }
  rewrite (update_session_eq w sid s now data Hs). cbn [snd].
  eapply every_session_sessions; [| apply every_session_mutate; [| exact Hw]]; [done |].
  intros s0 _ Hs0. by apply P_heartbeat, update_loop_keeps.
Qed.

Lemma heartbeat_keeps sid now :
  preserves (every_session P) (SessionManager.heartbeat sid now).
Proof.
  intros w Hw. unfold SessionManager.heartbeat. mrun.
  destruct (dict_get sid (sessions w)); [| done]. cbn [snd].
  apply every_session_mutate; [| done]. intros s0 _. apply P_heartbeat.
Qed.

Lemma delete_session_keeps sid :
  preserves (every_session P) (SessionManager.delete_session sid).
Proof.
  intros w Hw. rewrite delete_session_eq.
  destruct (dict_get sid (sessions w)); [| done]. cbn [snd].
  by apply (Forall_keyed_pop P).
Qed.

Lemma add_player_keeps sid data spec t :
  preserves (every_session P) (SessionManager.add_player sid data spec t).
Proof.
  intros w Hw. destruct (dict_get sid (sessions w)) as [s|] eqn:Hs.
  2:{ by rewrite add_player_absent. }
  rewrite (add_player_eq w sid s data spec t Hs).
  destruct (if truthy spec then _ else _) as [[]|]; [done | | done].
  destruct (py_add1 _) as [c|]; [| done]. cbn zeta.
  assert (every_session P
            (set_sessions (dict_mutate sid (set_counter (truthy spec) c) (sessions w)) w))
    as Hcounted.
  { apply every_session_mutate; [| done]. intros s0 _. apply P_counter. }
  destruct (data !! "steam_id") as [[| | |x]|]; try done. cbn [snd].
  eapply every_session_sessions; [| apply every_session_mutate; [| exact Hw]]; [done |].
  intros s0 _ Hs0. cbn beta.
  match goal with
  | |- P _ (set_players (_ ++ [?p]) ?s1) =>
      replace (players s0) with (players s1) by (by destruct (truthy spec));
      apply (P_append sid p s1); [done | by apply P_counter]
  end.
Qed.

Lemma remove_player_keeps sid steam :
  preserves (every_session P) (SessionManager.remove_player sid steam).
Proof.
  intros w Hw. destruct (dict_get sid (sessions w)) as [s|] eqn:Hs.
  2:{ by rewrite remove_player_absent. }
  rewrite (remove_player_eq w sid s steam Hs).
  destruct (pop_first steam (players s)) as [[removed rest]|] eqn:Hpop; [| done].
  cbn zeta. destruct (py_sub1 _) as [c|].
  - destruct (is_host removed); cbn [snd].
    + by apply (Forall_keyed_pop P).
    + eapply every_session_sessions; [| apply every_session_mutate; [| exact Hw]]; [done |].
      intros s0 Hs0 HP. assert (s0 = s) as -> by congruence.
      apply P_counter. by eapply P_pop.
  - cbn [snd]. apply every_session_mutate; [| done].
    intros s0 Hs0 HP. assert (s0 = s) as -> by congruence. by eapply P_pop.
Qed.

Lemma step_keeps a w :
  (∀ req peer fwd uuid8 t1 t2 t3, a = ACreate req peer fwd uuid8 t1 t2 t3 → may_draw uuid8) →
  every_session P w → every_session P (step sha256_hex a w).
Proof.
  intros Ha Hw. destruct a as [req peer fwd uuid8 t1 t2 t3|sid req now|sid|sid now
                               |sid req t|sid req|now|now fails|ws now fl|ws]; cbn [step].
  - unfold create_session. destruct req as [data|]; [| done].
    destruct (data !! "host_steam_id"); [| done].
    apply preserves_bind; [| intros; apply preserves_ret | done].
    apply create_session_keeps. by eapply Ha.
  - unfold update_session. destruct req as [data|]; [| done].
    apply preserves_bind; [apply update_session_keeps | | done].
    intros [?|]; apply preserves_ret.
  - unfold delete_session.
    apply preserves_bind; [apply delete_session_keeps | | done].
    intros []; apply preserves_ret.
  - unfold heartbeat_session.
    apply preserves_bind; [apply heartbeat_keeps | | done].
    intros []; apply preserves_ret.
  - unfold join_session. destruct req as [data|]; [| done].
    apply preserves_bind; [by intros ? | | done].
    intros [s|]; [| apply preserves_ret].
    apply preserves_bind; [apply preserves_lift |].
    intros []; [| apply preserves_ret].
    apply preserves_bind; [apply add_player_keeps |].
    intros [?|]; apply preserves_ret.
  - unfold leave_session. destruct req as [data|]; [| done].
    destruct (negb _); [done |].
    apply preserves_bind; [apply remove_player_keeps | | done].
    intros []; apply preserves_ret.
  - unfold SessionManager.cleanup_stale_sessions.
    apply (preserves_for_each (every_session P)); [| done]. intros sid.
    apply preserves_bind; [apply delete_session_keeps | intros; apply preserves_ret].
  - unfold run_next_task. by destruct (loop_tasks w).
  - unfold websocket_connect.
    apply preserves_bind; [by intros ? | | done]. intros _.
    apply preserves_bind; [by intros ? |]. intros ds.
    destruct fl; [apply preserves_lift | by intros ?].
  - done.
Qed.

Lemma run_keeps acts w :
  Forall (λ a, ∀ req peer fwd uuid8 t1 t2 t3,
                 a = ACreate req peer fwd uuid8 t1 t2 t3 → may_draw uuid8) acts →
  every_session P w → every_session P (run sha256_hex acts w).
Proof.
  intros Hacts. revert w. induction Hacts as [|a acts Ha _ IH]; intros w Hw; [done |].
  apply IH. by apply step_keeps.
Qed.
End session_invariant.

Section fixed.
Variable sha256_hex : string → string.
Implicit Types (w : world) (s : GameSession).

Lemma fixed_fields_setattr field v s : fixed_fields (setattr field v s) = fixed_fields s.
Proof. unfold setattr. by repeat case_match. Qed.

Lemma fixed_fields_counter role c s : fixed_fields (set_counter role c s) = fixed_fields s.
Proof. by destruct role. Qed.

Lemma min_within x m r : py_min x (VInt m) = Ok r → within r (VInt m).
Proof.
  unfold py_min, py_lt, within. cbn [as_num].
  destruct (as_num x) as [n|] eqn:Hx.
  - destruct (Z.ltb_spec m n); intros [= <-]; cbn [as_num]; [lia | rewrite Hx; lia].
  - by destruct x.
Qed.

(** A property that looks only at the id and at the attributes no method
    assigns holds everywhere once it holds of what [create_session]
    builds. *)
Lemma run_keeps_fixed (P : string → GameSession → Prop) (may_draw : string → Prop) acts w :
  (∀ k s s', fixed_fields s' = fixed_fields s → P k s → P k s') →
  (∀ w uuid8 t1 t2 t3 data s w',
     may_draw uuid8 →
     SessionManager.create_session sha256_hex uuid8 t1 t2 t3 data w = (Ok s, w') →
     P uuid8 s) →
  Forall (λ a, ∀ req peer fwd uuid8 t1 t2 t3,
                 a = ACreate req peer fwd uuid8 t1 t2 t3 → may_draw uuid8) acts →
  every_session P w → every_session P (run sha256_hex acts w).
Proof.
  intros Hfix Hnew. apply (run_keeps sha256_hex P may_draw); try done.
  - intros k field v s. apply Hfix, fixed_fields_setattr.
  - intros k now s. by apply Hfix.
  - intros k role c s. apply Hfix, fixed_fields_counter.
  - intros k p s _. by apply Hfix.
  - intros k steam removed rest s _. by apply Hfix.
Qed.

Lemma any_create_allowed (acts : list action) :
  Forall (λ a, ∀ req peer fwd uuid8 (t1 t2 t3 : Z),
                 a = ACreate req peer fwd uuid8 t1 t2 t3 → True) acts.
Proof. by apply Forall_forall. Qed.

(** X6. In every world the server reaches, whatever the requests carried
    (of the values represented here), each session's ceilings are
    numbers, at most 6 pilots and at most 15 spectators. *)
Theorem ceilings_hold_everywhere acts sid s :
  dict_get sid (sessions (run sha256_hex acts init)) = Some s →
  ceilings_clamped s.
Proof.
  intros Hs.
  apply (Forall_keyed_get (λ _, ceilings_clamped) sid s (sessions (run sha256_hex acts init)));
    [| done].
  apply (run_keeps_fixed (λ _, ceilings_clamped) (λ _, True)).
  - intros _ s1 s2 [= _ _ _ _ _ _ _ Hmp Hms _ _ _ _]. unfold ceilings_clamped.
    by rewrite Hmp, Hms.
  - intros w uuid8 t1 t2 t3 data s1 w' _
      [(e & ? & _)|(s2 & [= <-] & _ & _ & _ & _ & Hmp & Hms & _)]%create_session_inv;
      [done |].
    split; by eapply min_within.
  - apply any_create_allowed.
  - apply Forall_nil_2.
Qed.

(** X7. In every world the server reaches, each session is stored under
    its own [session_id]. *)
Theorem stored_under_own_id acts sid s :
  dict_get sid (sessions (run sha256_hex acts init)) = Some s →
  session_id s = sid.
Proof.
  intros Hs.
  apply (Forall_keyed_get (λ k x, session_id x = k) sid s
           (sessions (run sha256_hex acts init))); [| done].
  apply (run_keeps_fixed (λ k x, session_id x = k) (λ _, True)).
  - intros k s1 s2 [= Hid _]. congruence.
  - intros w uuid8 t1 t2 t3 data s1 w' _
      [(e & ? & _)|(s2 & [= <-] & _ & Hid & _)]%create_session_inv; done.
  - apply any_create_allowed.
  - apply Forall_nil_2.
Qed.

(** X8. From a session's creation on, no sequence of requests, sweeps and
    broadcasts changes its id, host identity, host endpoint, game mode,
    ceilings, physics mode, download flag, password digest or creation
    time, as long as no create draws its id again: if the id is still live
    at the end, these attributes are what they were. *)
Theorem fixed_fields_never_change acts w sid s s' :
  NoDup (dict_keys (sessions w)) →
  Forall (spares sid) acts →
  dict_get sid (sessions w) = Some s →
  dict_get sid (sessions (run sha256_hex acts w)) = Some s' →
  fixed_fields s' = fixed_fields s.
Proof.
  intros Hnd Hacts Hs Hs'.
  set (P := λ (k : string) (x : GameSession), k = sid → fixed_fields x = fixed_fields s).
  apply (Forall_keyed_get P sid s' (sessions (run sha256_hex acts w))); [| done..].
  apply (run_keeps_fixed P (λ k, k ≠ sid)).
  - intros k s1 s2 Heq Hk ->. rewrite Heq. by apply Hk.
  - intros ? uuid8 ? ? ? ? ? ? Hne _ ->. done.
  - eapply Forall_impl; [exact Hacts |].
    intros a Ha req peer fwd uuid8 t1 t2 t3 ->. exact Ha.
  - apply Forall_forall. intros [k x] Hin. unfold P. cbn. intros ->.
    pose proof (dict_elem_get _ _ _ Hnd Hin). congruence.
Qed.
End fixed.

Section hosts.
Variable sha256_hex : string → string.
Implicit Types (w : world) (s : GameSession) (ps : list Player).

Lemma pop_first_sublist steam ps removed rest :
  pop_first steam ps = Some (removed, rest) → rest `sublist_of` ps.
Proof.
  revert rest. induction ps as [|p ps IH]; intros rest; [done |].
  cbn [pop_first]. destruct (str_eq_value _ _).
  - intros [= <- <-]. by apply sublist_cons.
  - destruct (pop_first steam ps) as [[r rest']|]; [| done].
    intros [= <- <-]. apply sublist_skip. by apply IH.
Qed.

Lemma pop_first_tail steam ps removed rest :
  pop_first steam ps = Some (removed, rest) → tail rest `sublist_of` tail ps.
Proof.
  destruct ps as [|p ps]; [done |]. cbn [pop_first]. destruct (str_eq_value _ _).
  - intros [= <- <-]. cbn. destruct ps; [done |]. by apply sublist_cons.
  - destruct (pop_first steam ps) as [[r rest']|] eqn:Hpop; [| done].
    intros [= <- <-]. cbn. by eapply pop_first_sublist.
Qed.

Lemma Forall_sublist {A} (Q : A → Prop) (l k : list A) :
  l `sublist_of` k → Forall Q k → Forall Q l.
Proof.
  intros Hsub Hk. apply Forall_forall. intros x Hx.
  rewrite Forall_forall in Hk. apply Hk. by eapply elem_of_sublist.
Qed.

Lemma run_host_only_first acts :
  every_session (λ _, host_only_first) (run sha256_hex acts init).
Proof.
  apply (run_keeps sha256_hex (λ _, host_only_first) (λ _, True)).
  - intros w uuid8 t1 t2 t3 data s w' _
      [(e & ? & _)|(s2 & [= <-] & _ & _ & _ & _ & _ & _ & _ & _ & Hpl)]%create_session_inv;
      [done |].
    unfold host_only_first. rewrite Hpl. split; [constructor |].
    by repeat constructor.
  - intros _ field v s. unfold host_only_first, setattr. by repeat case_match.
  - done.
  - intros _ role c s. by destruct role.
  - intros _ p s Hp [Htail Hid]. unfold host_only_first. cbn. split.
    + destruct (players s) as [|q ps]; [constructor |]. cbn in *.
      apply Forall_app. split; [done | by repeat constructor].
    + apply Forall_app. split; [done |]. repeat constructor. by rewrite Hp.
  - intros _ steam removed rest s Hpop [Htail Hid]. unfold host_only_first. cbn. split.
    + eapply Forall_sublist; [by eapply pop_first_tail | done].
    + eapply Forall_sublist; [by eapply pop_first_sublist | done].
  - apply any_create_allowed.
  - apply Forall_nil_2.
Qed.

(** X9. In every world the server reaches, no player entry after the first
    is a host entry, and a host entry carries the session's
    [host_steam_id]; when the requests' counter fields were numbers, the
    first entry is the host, so each session has exactly one host entry,
    at the head of its list. *)
Theorem one_host_at_the_head acts sid s :
  dict_get sid (sessions (run sha256_hex acts init)) = Some s →
  host_only_first s ∧
  (Forall typed_action acts →
   ∃ p ps, players s = p :: ps ∧ is_host p = true ∧
           steam_id p = host_steam_id s ∧ Forall (λ q, is_host q = false) ps).
Proof.
  intros Hs.
  pose proof (Forall_keyed_get (λ _, host_only_first) sid s _
                (run_host_only_first acts) Hs) as Hhost.
  split; [done |]. intros Hty.
  pose proof (run_wf sha256_hex acts init Hty world_wf_init) as [_ Hall].
  pose proof (Forall_dict_get _ _ _ _ Hall Hs) as [Hfirst _].
  unfold host_first in Hfirst. destruct Hhost as [Htail _].
  destruct (players s) as [|p ps]; [done |].
  destruct Hfirst as (? & ? & _). by exists p, ps.
Qed.
End hosts.

Lemma ceilings_hold_everywhere_witness :
  ∃ s, dict_get "abcd1234" (sessions lobby) = Some s ∧ ceilings_clamped s.
Proof.
  eassert (dict_get "abcd1234" (sessions lobby) = Some _) as Hs by (vm_compute; reflexivity).
  eexists. split; [exact Hs |].
  exact (ceilings_hold_everywhere demo_digest
           [ACreate (Some host_body) (Some "203.0.113.5") None "abcd1234" 10 11 12]
           "abcd1234" _ Hs).
Defined.

Lemma stored_under_own_id_witness :
  ∃ s, dict_get "abcd1234" (sessions lobby) = Some s ∧ session_id s = "abcd1234".
Proof.
  eassert (dict_get "abcd1234" (sessions lobby) = Some _) as Hs by (vm_compute; reflexivity).
  eexists. split; [exact Hs |].
  exact (stored_under_own_id demo_digest
           [ACreate (Some host_body) (Some "203.0.113.5") None "abcd1234" 10 11 12]
           "abcd1234" _ Hs).
Defined.

Lemma fixed_fields_never_change_witness :
  let acts :=
    [AUpdate "abcd1234"
       (Some {[ "host_ip" := VStr "198.51.100.9"; "laps" := VInt 9 ]}) 30;
     AJoin "abcd1234" (Some (join_body "P2")) 40] in
  ∃ s s', dict_get "abcd1234" (sessions lobby) = Some s ∧
          dict_get "abcd1234" (sessions (run demo_digest acts lobby)) = Some s' ∧
          fixed_fields s' = fixed_fields s.
Proof.
  intros acts.
  eassert (dict_get "abcd1234" (sessions lobby) = Some _) as Hs by (vm_compute; reflexivity).
  eassert (dict_get "abcd1234" (sessions (run demo_digest acts lobby)) = Some _) as Hs'
    by (vm_compute; reflexivity).
  eexists _, _. split_and!; [exact Hs | exact Hs' |].
  apply (fixed_fields_never_change demo_digest acts lobby "abcd1234" _ _
           ltac:(vm_compute; repeat constructor; set_solver)
           ltac:(by repeat constructor) Hs Hs').
Defined.

Lemma one_host_at_the_head_witness :
  ∃ s, dict_get "abcd1234" (sessions lobby) = Some s ∧ host_only_first s.
Proof.
  eassert (dict_get "abcd1234" (sessions lobby) = Some _) as Hs by (vm_compute; reflexivity).
  eexists. split; [exact Hs |].
  exact (proj1 (one_host_at_the_head demo_digest
                  [ACreate (Some host_body) (Some "203.0.113.5") None "abcd1234" 10 11 12]
                  "abcd1234" _ Hs)).
Defined.

(** ** Create, join and leave: what success looks like *)

Section lifecycle.
Variable sha256_hex : string → string.
Implicit Types (w : world) (s : GameSession) (data : gmap string value).

(** The password part of a successful [create_session] *)
Lemma create_session_password w uuid8 t1 t2 t3 data s w' :
  SessionManager.create_session sha256_hex uuid8 t1 t2 t3 data w = (Ok s, w') →
  (truthy (dget data "password" VNone) = false ∧ password_hash s = "") ∨
  (∃ pw, dget data "password" VNone = VStr pw ∧ pw ≠ "" ∧
         password_hash s = sha256_hex pw).
Proof.
  unfold SessionManager.create_session, subscript. mrun.
  destruct (data !! "host_steam_id") as [[| | |h]|]; try done.
  destruct (py_min (dget data "max_pilots" _) _); [| done].
  destruct (py_min (dget data "max_spectators" _) _); [| done].
  destruct (truthy (dget data "password" VNone)) eqn:Htruthy.
  - destruct (dget data "password" VNone) as [| | |pw]; try done.
    intros [= <- _]. right. exists pw. split_and!; [done | | done].
    intros ->. done.
  - intros [= <- _]. by left.
Qed.


(** X11. After a create answered 201, a get of the id drawn answers 200
    with the same body. *)
Theorem create_then_get w req peer fwd uuid8 t1 t2 t3 r w' :
  create_session sha256_hex req peer fwd uuid8 t1 t2 t3 w = (Ok r, w') →
  http_status r = 201%Z →
  get_session uuid8 w' = (Ok (json_response (http_body r) 200), w').
Proof.
  unfold create_session. destruct req as [data|]; [| by intros [= <- <-]].
  destruct (data !! "host_steam_id"); [| by intros [= <- <-]].
  unfold mbind, M_bind.
  match goal with
  | |- context [SessionManager.create_session _ _ _ _ _ ?d w] =>
      destruct (SessionManager.create_session sha256_hex uuid8 t1 t2 t3 d w)
        as [r0 w0] eqn:Hrun
  end.
  apply create_session_inv in Hrun as [(e & -> & ->)|(s & -> & -> & _)]; [done |].
  intros [= <- <-] _. unfold get_session. mrun.
  cbn [sessions set_loop_tasks set_sessions]. by rewrite dict_get_set, decide_True.
Qed.

(** X12. The password of a create is the password of its joins: a session
    created with a non-empty str password stores its digest and lets
    through a join that supplies the same password; a session created
    with no (or a falsy) password stores no digest and lets every join
    through. *)
Theorem password_round_trip w uuid8 t1 t2 t3 data s w' :
  SessionManager.create_session sha256_hex uuid8 t1 t2 t3 data w = (Ok s, w') →
  (∀ pw, dget data "password" VNone = VStr pw → pw ≠ "" →
     password_hash s = sha256_hex pw ∧
     ∀ body, dget body "password" (VStr "") = VStr pw →
             check_password sha256_hex s body = Ok true) ∧
  (truthy (dget data "password" VNone) = false →
     password_hash s = "" ∧ has_password (to_dict s) = false ∧
     ∀ body, check_password sha256_hex s body = Ok true).
Proof.
  intros Hrun. apply create_session_password in Hrun as [[Hfalsy Hhash]|(pw & Hpw & Hne & Hhash)].
  - split.
    + intros pw Hpw Hne. rewrite Hpw in Hfalsy. cbn in Hfalsy.
      by destruct (String.eqb_spec pw "").
    + intros _. unfold check_password, to_dict. cbn. by rewrite Hhash.
  - split.
    + intros pw' Hpw' _. assert (pw' = pw) as -> by congruence. split; [done |].
      intros body Hbody. unfold check_password. rewrite Hbody, Hhash.
      rewrite String.eqb_refl. by destruct (negb _).
    + rewrite Hpw. cbn. by destruct (String.eqb_spec pw "").
Qed.


Lemma pop_first_fresh x ps p :
  (∀ q, q ∈ ps → steam_id q ≠ x) → steam_id p = x →
  pop_first (VStr x) (ps ++ [p]) = Some (p, ps).
Proof.
  intros Hfresh Hp. induction ps as [|q ps IH]; cbn [pop_first app str_eq_value].
  - by rewrite Hp, String.eqb_refl.
  - destruct (String.eqb_spec (steam_id q) x) as [Hq|_].
    + destruct (Hfresh q); [left | done].
    + rewrite IH; [done |]. intros r Hr. apply Hfresh. by right.
Qed.

Lemma dict_mutate_fixpoint {V} k (f : V → V) (v : V) d :
  dict_get k d = Some v → f v = v → dict_mutate k f d = d.
Proof.
  intros Hk Hf. rewrite (dict_mutate_ext k f id); [apply dict_mutate_id |].
  intros v' Hv'. assert (v' = v) as -> by congruence. done.
Qed.

(** X14. Joining under a [steam_id] that is not in the player list and
    then leaving under it puts the registry back as it was: the same
    player lists and the same counters.  What remains of the pair is its
    two scheduled broadcasts. *)
Theorem join_then_leave_restores w sid s data spec x t n :
  dict_get sid (sessions w) = Some s →
  data !! "steam_id" = Some (VStr x) →
  (∀ q, q ∈ players s → steam_id q ≠ x) →
  (if truthy spec then is_spectator_full s else is_full s) = Ok false →
  counter_of (truthy spec) s = VInt n →
  ∃ p w1 w2,
    SessionManager.add_player sid data spec t w = (Ok (Some p), w1) ∧
    SessionManager.remove_player sid (VStr x) w1 = (Ok true, w2) ∧
    sessions w2 = sessions w ∧
    loop_tasks w2 =
      loop_tasks w ++ [mkEvent "player_joined" (PPlayerJoined sid p);
                       mkEvent "player_left" (PPlayerLeft sid (VStr x))].
Proof.
  intros Hs Hid Hfresh Hroom Hn.
  pose proof (add_player_eq w sid s data spec t Hs) as Hadd.
  rewrite Hroom, Hid in Hadd. unfold py_add1 in Hadd. rewrite Hn in Hadd.
  cbn [as_num] in Hadd. cbn zeta in Hadd.
  set (p := {| steam_id := x;
               name := dget data "name" (VStr ("Player_" +:+ last6 x));
               avatar_url := dget data "avatar_url" (VStr "");
               is_host := false; is_spectator := spec; joined_at := t |}) in *.
  match type of Hadd with _ = (_, ?w) => set (w1 := w) in * end.
  set (s1 := joined spec (VInt (n + 1)) p s).
  assert (dict_get sid (sessions w1) = Some s1) as Hs1.
  { subst w1. cbn [sessions set_loop_tasks set_sessions].
    by rewrite dict_get_mutate, decide_True, Hs. }
  assert (players s1 = players s ++ [p]) as Hpl1
    by (subst s1; unfold joined; by destruct (truthy spec)).
  pose proof (remove_player_eq w1 sid s1 (VStr x) Hs1) as Hrem.
  rewrite Hpl1, (pop_first_fresh x (players s) p Hfresh eq_refl) in Hrem.
  cbn zeta in Hrem. cbn [is_spectator is_host p] in Hrem.
  assert (counter_of (truthy spec) s1 = VInt (n + 1)) as Hc1
    by (subst s1; unfold joined, counter_of, set_counter; by destruct (truthy spec)).
  unfold py_sub1 in Hrem. rewrite Hc1 in Hrem. cbn [as_num] in Hrem.
  exists p, w1. eexists. split_and!; [done | exact Hrem | |].
  - subst w1. cbn [sessions set_loop_tasks set_sessions].
    rewrite dict_mutate_mutate. apply (dict_mutate_fixpoint _ _ s); [done |].
    cbn. unfold joined, counter_of, set_counter in *.
    replace (n + 1 - 1)%Z with n by lia.
    destruct s; destruct (truthy spec); cbn in *; by subst.
  - subst w1. cbn [loop_tasks set_loop_tasks set_sessions]. by rewrite <-app_assoc.
Qed.
End lifecycle.


Lemma create_then_get_witness :
  ∃ b, get_session "abcd1234" lobby = (Ok (json_response b 200), lobby).
Proof.
  eassert (create_session demo_digest (Some host_body) (Some "203.0.113.5") None
             "abcd1234" 10 11 12 init = (Ok _, _)) as Hrun by (vm_compute; reflexivity).
  eexists. exact (create_then_get demo_digest _ _ _ _ _ _ _ _ _ _ Hrun eq_refl).
Defined.

Lemma password_round_trip_witness :
  ∃ s, dict_get "abcd1234" (sessions locked_lobby) = Some s ∧
       check_password demo_digest s (<["password" := VStr "secret"]> (join_body "P2")) = Ok true.
Proof.
  eassert (SessionManager.create_session demo_digest "abcd1234" 10 11 12
             (<["host_ip" := VStr "203.0.113.5"]> locked_body) init = (Ok _, _)) as Hrun
    by (vm_compute; reflexivity).
  eexists. split; [vm_compute; reflexivity |].
  apply (proj1 (password_round_trip demo_digest _ _ _ _ _ _ _ _ Hrun) "secret");
    [vm_compute; reflexivity | done | vm_compute; reflexivity].
Defined.


Lemma join_then_leave_restores_witness :
  ∃ p w1 w2,
    SessionManager.add_player "abcd1234" (join_body "P2") (VBool false) 20 lobby
      = (Ok (Some p), w1) ∧
    SessionManager.remove_player "abcd1234" (VStr "P2") w1 = (Ok true, w2) ∧
    sessions w2 = sessions lobby.
Proof.
  eassert (dict_get "abcd1234" (sessions lobby) = Some _) as Hs by (vm_compute; reflexivity).
  destruct (join_then_leave_restores lobby "abcd1234" _ (join_body "P2") (VBool false)
              "P2" 20 1 Hs)
    as (p & w1 & w2 & Hadd & Hrem & Hsame & _); try (vm_compute; reflexivity).
  { intros q Hq. apply list_elem_of_singleton in Hq as ->. vm_compute. discriminate. }
  by exists p, w1, w2.
Defined.

(** ** Listing and the subscribers *)

Section listing.
Implicit Types (w : world) (s : GameSession) (ds : list session_dict).

Lemma insert_by_created_perm x ds : SessionManager.insert_by_created x ds ≡ₚ x :: ds.
Proof.
  induction ds as [|y ds IH]; [done |]. cbn [SessionManager.insert_by_created].
  destruct (_ <=? _)%Z; [done |]. rewrite IH. apply Permutation_swap.
Qed.

Lemma sort_newest_first_perm ds : SessionManager.sort_newest_first ds ≡ₚ ds.
Proof.
  unfold SessionManager.sort_newest_first. induction ds as [|x ds IH]; [done |].
  cbn [foldr]. by rewrite insert_by_created_perm, IH.
Qed.

Lemma insert_by_created_sorted x ds :
  newest_first ds → newest_first (SessionManager.insert_by_created x ds).
Proof.
  unfold newest_first. induction 1 as [|y ds Hds IH Hy];
    cbn [SessionManager.insert_by_created].
  - by repeat constructor.
  - destruct (Z.leb_spec (created_at (d_fields y)) (created_at (d_fields x))).
    + constructor; [by constructor |]. constructor; [done |].
      eapply Forall_impl; [exact Hy |]. cbn. intros; lia.
    + constructor; [done |].
      rewrite (insert_by_created_perm x ds). constructor; [lia | done].
Qed.

Lemma sort_newest_first_sorted ds : newest_first (SessionManager.sort_newest_first ds).
Proof.
  unfold SessionManager.sort_newest_first. induction ds as [|x ds IH]; [constructor |].
  cbn [foldr]. by apply insert_by_created_sorted.
Qed.

Lemma list_loop_ok mode has_slots (l : list (string * GameSession)) ds :
  SessionManager.list_loop mode has_slots l = Ok ds →
  ∃ kept,
    ds = to_dict <$> kept ∧ kept `sublist_of` l.*2 ∧
    (∀ s, s ∈ kept → listed mode has_slots s) ∧
    (∀ s, s ∈ l.*2 → listed mode has_slots s → s ∈ kept).
Proof.
  revert ds. induction l as [|[k s] l IH]; intros ds; cbn [SessionManager.list_loop].
  - intros [= <-]. exists []. split_and!; [done | done | |]; intros s Hs; by apply elem_of_nil in Hs.
  - set (skip := match mode with
                 | Some m => truthy (VStr m) && negb (bool_decide (game_mode s = VStr m))
                 | None => false
                 end).
    assert (skip = false → ∀ m, mode = Some m → m ≠ "" → game_mode s = VStr m) as Hmode.
    { subst skip. intros Hskip m -> Hm. cbn in Hskip.
      destruct (String.eqb_spec m "") as [|_]; [done |]. cbn in Hskip.
      by case_bool_decide. }
    assert (skip = true → ¬ listed mode has_slots s) as Hskipped.
    { subst skip. intros Hskip [Hm _]. destruct mode as [m|]; [| done].
      apply andb_true_iff in Hskip as [Hne Hdiff]. cbn in Hne.
      destruct (String.eqb_spec m "") as [|Hm']; [done |].
      rewrite (Hm m eq_refl Hm') in Hdiff. by case_bool_decide. }
    assert (∀ ds', SessionManager.list_loop mode has_slots l = Ok ds' →
              ¬ listed mode has_slots s →
              ∃ kept, ds' = to_dict <$> kept ∧ kept `sublist_of` ((k, s) :: l).*2 ∧
                (∀ s0, s0 ∈ kept → listed mode has_slots s0) ∧
                (∀ s0, s0 ∈ ((k, s) :: l).*2 → listed mode has_slots s0 → s0 ∈ kept))
      as Hdrop.
    { intros ds' (kept & -> & Hsub & Hin & Hall)%IH Hnot. exists kept. csimpl.
      split_and!; [done | by apply sublist_cons | done |].
      intros s0 [->|Hs0]%elem_of_cons Hl; [done | by apply Hall]. }
    destruct skip eqn:Hskip; [intros Hl; apply Hdrop; auto |].
    destruct has_slots.
    + destruct (is_full s) as [[]|] eqn:Hfull; [| | done].
      * intros Hl. apply Hdrop; [done |]. intros [_ Hf]. specialize (Hf eq_refl). congruence.
      * destruct (SessionManager.list_loop mode true l) as [ds'|] eqn:Hl; [| done].
        intros [= <-]. destruct (IH ds' eq_refl) as (kept & -> & Hsub & Hin & Hall).
        exists (s :: kept). csimpl. split_and!; [done | by apply sublist_skip | |].
        -- intros s0 [->|Hs0]%elem_of_cons; [| by apply Hin]. split; [by apply Hmode | done].
        -- intros s0 [->|Hs0]%elem_of_cons Hl0; [left | right; by apply Hall].
    + destruct (SessionManager.list_loop mode false l) as [ds'|] eqn:Hl; [| done].
      intros [= <-]. destruct (IH ds' eq_refl) as (kept & -> & Hsub & Hin & Hall).
      exists (s :: kept). csimpl. split_and!; [done | by apply sublist_skip | |].
      * intros s0 [->|Hs0]%elem_of_cons; [| by apply Hin]. split; [by apply Hmode | done].
      * intros s0 [->|Hs0]%elem_of_cons Hl0; [left | right; by apply Hall].
Qed.

(** X15. [GET /api/sessions] changes nothing.  When it answers, the count
    is the length of the list, the list is ordered newest first, and it
    holds exactly the dicts of the live sessions that pass the filters:
    those in the requested game mode when [mode] is given and non-empty,
    and, unless [available] lower-cased differs from ["true"], those that
    are not full. *)
Theorem list_sessions_lists w mode available r w' :
  list_sessions mode available w = (Ok r, w') →
  let has_slots := String.eqb (lower (default "true" available)) "true" in
  w' = w ∧
  listing_count r = length (listing_sessions r) ∧
  newest_first (listing_sessions r) ∧
  ∃ kept,
    listing_sessions r ≡ₚ to_dict <$> kept ∧
    kept `sublist_of` (sessions w).*2 ∧
    (∀ s, s ∈ kept → listed mode has_slots s) ∧
    (∀ s, s ∈ (sessions w).*2 → listed mode has_slots s → s ∈ kept).
Proof.
  unfold list_sessions, SessionManager.list_sessions. mrun.
  destruct (SessionManager.list_loop _ _ (sessions w)) as [ds|] eqn:Hloop; [| done].
  intros [= <- <-]. cbn. split_and!; [done | done | apply sort_newest_first_sorted |].
  destruct (list_loop_ok _ _ _ _ Hloop) as (kept & -> & Hrest).
  exists kept. split; [apply sort_newest_first_perm | done].
Qed.

(** X16. One run of [broadcast_update], taken as one step, leaves the
    registry and the pending broadcasts alone, keeps as subscribers
    exactly the sockets on which the send did not raise, and writes the
    envelope once to each of those and to no other socket. *)
Theorem broadcast_reaches_the_living ev now (fails : nat → bool) w :
  let w' := (SessionManager.broadcast_update ev now fails w).2 in
  sessions w' = sessions w ∧ loop_tasks w' = loop_tasks w ∧
  (∀ ws, ws ∈ websockets w' ↔ ws ∈ websockets w ∧ fails ws = false) ∧
  ∃ sent,
    wire w' = wire w ++ sent ∧ NoDup sent ∧
    ∀ ws m, (ws, m) ∈ sent ↔
            ws ∈ websockets w ∧ fails ws = false ∧
            m = mkEnvelope (event_type ev) (event_data ev) now.
Proof.
  cbn. split_and!; [done | done | |].
  - intros ws. rewrite elem_of_difference, elem_of_list_to_set, list_elem_of_filter,
      elem_of_elements. split.
    + intros [Hin Hnot]. split; [done |]. destruct (fails ws); [| done].
      destruct Hnot. by split.
    + intros [Hin Hok]. split; [done |]. intros [Hf _]. congruence.
  - eexists. split; [done |]. split.
    + apply (NoDup_fmap_2 _). apply NoDup_filter, NoDup_elements.
    + intros ws m. rewrite list_elem_of_fmap. split.
      * intros (ws' & [= -> ->] & [Hok Hin%elem_of_elements]%list_elem_of_filter). done.
      * intros (Hin & Hok & ->). exists ws. split; [done |].
        apply list_elem_of_filter. split; [done | by apply elem_of_elements].
Qed.

(** X17. A connecting socket is in the subscriber set from then on, even
    when the listing or the first send raises, and the registry and the
    pending broadcasts are as before.  When neither raises, the socket is
    sent one [initial] envelope and nothing else is written; the envelope
    lists, newest first, the dicts of the live sessions that are not
    full, whatever their game mode. *)
Theorem connect_sends_snapshot ws now send_fails w :
  let out := websocket_connect ws now send_fails w in
  ws ∈ websockets out.2 ∧ sessions out.2 = sessions w ∧ loop_tasks out.2 = loop_tasks w ∧
  (∀ ds,
     SessionManager.list_sessions None true w = (Ok ds, w) → send_fails = false →
     out.1 = Ok tt ∧
     websockets out.2 = {[ws]} ∪ websockets w ∧
     wire out.2 = wire w ++ [(ws, mkEnvelope "initial" (PInitial ds) now)] ∧
     newest_first ds ∧
     (∀ d, d ∈ ds → ∃ s, s ∈ (sessions w).*2 ∧ d = to_dict s ∧ is_full s = Ok false) ∧
     (∀ s, s ∈ (sessions w).*2 → is_full s = Ok false → to_dict s ∈ ds)).
Proof.
  unfold websocket_connect, SessionManager.list_sessions. mrun.
  cbn [sessions set_sockets].
  destruct (SessionManager.list_loop None true (sessions w)) as [ds0|] eqn:Hloop.
  - destruct send_fails; cbn; (split_and!; [set_solver | done | done |]).
    + by intros ds _ ?.
    + intros ds [= <-] _.
      split_and!; [done | done | done | apply sort_newest_first_sorted | |].
      all: destruct (list_loop_ok _ _ _ _ Hloop) as (kept & -> & Hsub & Hin & Hall).
      * intros d Hd. rewrite sort_newest_first_perm in Hd.
        apply list_elem_of_fmap in Hd as (s & -> & Hs). exists s.
        split; [by eapply elem_of_sublist |]. split; [done |]. by apply (Hin s Hs).
      * intros s Hs Hroom. rewrite sort_newest_first_perm.
        apply list_elem_of_fmap_2, Hall; [done |]. by split.
  - cbn. split_and!; [set_solver | done | done |]. by intros ds [= ].
Qed.
End listing.

Lemma connect_sends_snapshot_witness :
  ∃ ds, wire (websocket_connect 1 50 false lobby).2 =
        wire lobby ++ [(1, mkEnvelope "initial" (PInitial ds) 50%Z)].
Proof.
  eassert (SessionManager.list_sessions None true lobby = (Ok _, lobby)) as Hlist
    by (vm_compute; reflexivity).
  destruct (connect_sends_snapshot 1 50 false lobby) as (_ & _ & _ & Hsnap).
  destruct (Hsnap _ Hlist eq_refl) as (_ & _ & Hwire & _).
  eexists. exact Hwire.
Defined.

Lemma list_sessions_lists_witness :
  ∃ r, list_sessions (Some "race") None lobby = (Ok r, lobby) ∧ listing_count r = 1.
Proof.
  eassert (list_sessions (Some "race") None lobby = (Ok _, _)) as Hrun
    by (vm_compute; reflexivity).
  destruct (list_sessions_lists _ _ _ _ _ Hrun) as (_ & Hcount & _).
  eexists. split; [exact Hrun |]. rewrite Hcount. reflexivity.
Defined.

(** ** What leaves the process *)

Section secrets.
Variable sha256_hex : string → string.
Implicit Types (w : world) (s : GameSession).

Lemma list_sessions_blank mode has_slots w ds w' :
  SessionManager.list_sessions mode has_slots w = (Ok ds, w') →
  Forall (λ d, password_hash (d_fields d) = "") ds.
Proof.
  unfold SessionManager.list_sessions.
  destruct (SessionManager.list_loop _ _ _) as [ds0|] eqn:Hloop; [| done].
  intros [= <- <-]. rewrite sort_newest_first_perm.
  destruct (list_loop_ok _ _ _ _ Hloop) as (kept & -> & _).
  apply Forall_fmap, Forall_true. done.
Qed.

Lemma preserves_create_task ty data :
  no_digest data → preserves nothing_leaks (create_task ty data).
Proof.
  intros Hdata w [Htasks Hwire]. split; [| done]. cbn.
  apply Forall_app. split; [done |]. by constructor.
Qed.

Ltac quiet :=
  repeat match goal with
    | |- preserves _ (ret _) => apply preserves_ret
    | |- preserves _ (lift _) => apply preserves_lift
    | |- preserves _ (SessionManager.get_session _) => by intros ?
    | |- preserves _ (_ ≫= _) => apply preserves_bind; [| intros ?]
    | |- preserves _ (for_each _ _) => apply preserves_for_each; intros ?
    | |- preserves _ (create_task _ _) => apply preserves_create_task; by cbn
    | |- preserves _ (modify _) => apply preserves_modify; by intros ? ?
    | |- preserves _ (match ?x with _ => _ end) => destruct x
    end.

Lemma delete_session_quiet sid : preserves nothing_leaks (SessionManager.delete_session sid).
Proof. unfold SessionManager.delete_session. quiet. Qed.

Lemma step_quiet a w : nothing_leaks w → nothing_leaks (step sha256_hex a w).
Proof.
  intros Hw.
  destruct a as [req peer fwd uuid8 t1 t2 t3|sid req now|sid|sid now
                |sid req t|sid req|now|now fails|ws now fl|ws]; cbn [step];
    revert w Hw.
  - change (preserves nothing_leaks (create_session sha256_hex req peer fwd uuid8 t1 t2 t3)).
    unfold create_session, SessionManager.create_session. quiet.
  - change (preserves nothing_leaks (update_session sid req now)).
    unfold update_session, SessionManager.update_session, mutate. quiet.
  - change (preserves nothing_leaks (delete_session sid)).
    unfold delete_session. quiet. apply delete_session_quiet.
  - change (preserves nothing_leaks (heartbeat_session sid now)).
    unfold heartbeat_session, SessionManager.heartbeat, mutate. quiet.
  - change (preserves nothing_leaks (join_session sha256_hex sid req t)).
    unfold join_session, SessionManager.add_player, mutate. quiet.
  - change (preserves nothing_leaks (leave_session sid req)).
    unfold leave_session, SessionManager.remove_player, mutate.
    quiet; apply delete_session_quiet.
  - intros w Hw. unfold SessionManager.cleanup_stale_sessions.
    apply (preserves_for_each nothing_leaks); [| done]. intros sid. quiet.
    apply delete_session_quiet.
  - intros w [Htasks Hwire]. unfold run_next_task.
    destruct (loop_tasks w) as [|ev rest] eqn:Hq;
      [split; cbn; [rewrite Hq; constructor | done] |].
    apply Forall_cons in Htasks as [Hev Hrest]. split; cbn; [done |].
    apply Forall_app. split; [done |]. by apply Forall_fmap, Forall_true.
  - intros w [Htasks Hwire]. unfold websocket_connect. mrun.
    destruct (SessionManager.list_sessions None true _) as [[ds|e] w1] eqn:Hlist;
      [| unfold SessionManager.list_sessions in Hlist;
         destruct (SessionManager.list_loop _ _ _); by simplify_eq].
    pose proof (list_sessions_blank _ _ _ _ _ Hlist) as Hblank.
    unfold SessionManager.list_sessions in Hlist.
    destruct (SessionManager.list_loop _ _ _); simplify_eq.
    destruct fl; split; cbn; try done.
    apply Forall_app. split; [done |]. by constructor.
  - change (preserves nothing_leaks (websocket_disconnect ws)).
    unfold websocket_disconnect. quiet.
Qed.

Lemma run_quiet acts w : nothing_leaks w → nothing_leaks (run sha256_hex acts w).
Proof.
  revert w. induction acts as [|a acts IH]; intros w Hw; [done |].
  apply IH. by apply step_quiet.
Qed.

(** X18. Whatever requests, sweeps, broadcast runs and socket events the
    server has gone through since it started, no pending broadcast and no
    message written to a socket carries a password digest: every session
    payload among them has its [password_hash] blanked. *)
Theorem run_leaks_nothing acts : nothing_leaks (run sha256_hex acts init).
Proof. apply run_quiet. split; constructor. Qed.

(** X19. A session body in an answer is the dict of the session as it is
    stored under the request's id when the handler returns, be it
    created, fetched or updated; so the body shows the state after the
    change, without the digest. *)
Theorem session_body_is_stored_state w r w' d :
  http_body r = JSession d →
  (∀ req peer fwd uuid8 t1 t2 t3,
     create_session sha256_hex req peer fwd uuid8 t1 t2 t3 w = (Ok r, w') →
     ∃ s, dict_get uuid8 (sessions w') = Some s ∧ d = to_dict s) ∧
  (∀ sid,
     get_session sid w = (Ok r, w') →
     ∃ s, dict_get sid (sessions w') = Some s ∧ d = to_dict s) ∧
  (∀ sid req now,
     update_session sid req now w = (Ok r, w') →
     ∃ s, dict_get sid (sessions w') = Some s ∧ d = to_dict s).
Proof.
  intros Hd. split_and!.
  - intros req peer fwd uuid8 t1 t2 t3. unfold create_session.
    destruct req as [data|]; [| intros [= <- <-]; by simplify_eq/=].
    destruct (data !! "host_steam_id"); [| intros [= <- <-]; by simplify_eq/=].
    unfold mbind, M_bind.
    match goal with
    | |- context [SessionManager.create_session _ _ _ _ _ ?b w] =>
        destruct (SessionManager.create_session sha256_hex uuid8 t1 t2 t3 b w)
          as [r0 w0] eqn:Hrun
    end.
    apply create_session_inv in Hrun as [(e & -> & ->)|(s & -> & -> & _)]; [done |].
    intros [= <- <-]. cbn in Hd. simplify_eq. exists s. split; [| done].
    cbn [sessions set_loop_tasks set_sessions]. by rewrite dict_get_set, decide_True.
  - intros sid. unfold get_session, SessionManager.get_session. mrun.
    destruct (dict_get sid (sessions w)) as [s|] eqn:Hs; intros [= <- <-];
      cbn in Hd; simplify_eq. by exists s.
  - intros sid req now. unfold update_session.
    destruct req as [data|]; [| intros [= <- <-]; by simplify_eq/=].
    unfold mbind, M_bind.
    destruct (dict_get sid (sessions w)) as [s|] eqn:Hs.
    + rewrite (update_session_eq _ _ _ _ _ Hs). intros [= <- <-].
      cbn in Hd. simplify_eq. eexists. split; [| done].
      cbn [sessions set_loop_tasks set_sessions].
      by rewrite dict_get_mutate, decide_True, Hs.
    + rewrite (update_session_absent _ _ _ _ Hs). intros [= <- <-]. by simplify_eq/=.
Qed.
End secrets.

Lemma session_body_is_stored_state_witness :
  ∃ s, dict_get "abcd1234" (sessions lobby) = Some s ∧
       get_session "abcd1234" lobby = (Ok (json_response (JSession (to_dict s)) 200), lobby).
Proof.
  eassert (get_session "abcd1234" lobby = (Ok (json_response (JSession _) 200), _)) as Hrun
    by (vm_compute; reflexivity).
  match type of Hrun with
  | _ = (Ok ?r, ?w') =>
      destruct (session_body_is_stored_state demo_digest lobby r w' _ eq_refl)
        as (_ & Hget & _)
  end.
  destruct (Hget _ Hrun) as (s & Hs & Hd). exists s. split; [exact Hs |].
  rewrite <-Hd. exact Hrun.
Defined.

(** ** Heartbeats and the sweep *)

Section keep_alive.
Implicit Types (w : world) (s : GameSession).

Lemma heartbeat_eq w sid s t :
  dict_get sid (sessions w) = Some s →
  SessionManager.heartbeat sid t w =
  (Ok true, set_sessions (dict_mutate sid (set_last_heartbeat t) (sessions w)) w).
Proof. intros Hs. unfold SessionManager.heartbeat, mutate. mrun. by rewrite Hs. Qed.

Lemma sweep_eq w now :
  NoDup (dict_keys (sessions w)) →
  SessionManager.cleanup_stale_sessions now w =
  (Ok tt,
   set_loop_tasks (loop_tasks w ++ (deleted_event <$> SessionManager.stale_ids w now))
     (set_sessions (foldl (λ d k, dict_pop k d) (sessions w)
                      (SessionManager.stale_ids w now)) w)).
Proof.
  intros Hd. unfold SessionManager.cleanup_stale_sessions.
  rewrite delete_each_eq; [done | done | by apply NoDup_stale_ids |].
  intros k (s & Hs & _)%elem_of_stale_ids; [by eexists | done].
Qed.

Lemma sweep_keeps w now sid s :
  NoDup (dict_keys (sessions w)) →
  dict_get sid (sessions (SessionManager.cleanup_stale_sessions now w).2) = Some s ↔
  dict_get sid (sessions w) = Some s ∧
  SessionManager.is_stale (session_timeout w) now s = false.
Proof.
  intros Hd. rewrite sweep_eq by done. cbn [snd sessions set_loop_tasks set_sessions].
  rewrite dict_get_pop_all by done. case_decide as Hin.
  - apply elem_of_stale_ids in Hin as (s' & Hs' & Hst); [| done].
    split; [done |]. intros [Hs Hfresh]. congruence.
  - split; [| by intros []]. intros Hs. split; [done |].
    destruct (SessionManager.is_stale _ _ s) eqn:Hst; [| done].
    destruct Hin. apply elem_of_stale_ids; eauto.
Qed.

(** X20. A session that got a heartbeat at [t] outlives every sweep whose
    clock reads at most [session_timeout] seconds past [t], however old
    its earlier heartbeat was, and is then as the heartbeat left it. *)
Theorem heartbeat_survives_sweep w sid s t now :
  NoDup (dict_keys (sessions w)) →
  dict_get sid (sessions w) = Some s →
  (now - t ≤ session_timeout w * 1000000)%Z →
  let w1 := (SessionManager.heartbeat sid t w).2 in
  let w2 := (SessionManager.cleanup_stale_sessions now w1).2 in
  dict_get sid (sessions w2) = Some (set_last_heartbeat t s).
Proof.
  intros Hd Hs Hnow. rewrite (heartbeat_eq _ _ _ _ Hs). cbn [snd].
  apply sweep_keeps.
  - cbn [sessions set_sessions]. by apply NoDup_dict_mutate.
  - cbn [sessions set_sessions session_timeout].
    rewrite dict_get_mutate, decide_True, Hs by done. split; [done |].
    unfold SessionManager.is_stale. destruct s; cbn. lia.
Qed.

(** X21. After a sweep no stored session is stale for the sweep's clock
    reading, and a second sweep with the same reading returns normally
    and changes nothing: no session goes and no broadcast is scheduled. *)
Theorem sweep_again_is_idle w now :
  NoDup (dict_keys (sessions w)) →
  let w1 := (SessionManager.cleanup_stale_sessions now w).2 in
  (∀ sid s, dict_get sid (sessions w1) = Some s →
            SessionManager.is_stale (session_timeout w1) now s = false) ∧
  SessionManager.cleanup_stale_sessions now w1 = (Ok tt, w1).
Proof.
  intros Hd w1.
  assert (session_timeout w1 = session_timeout w) as Ht
    by (subst w1; by rewrite sweep_eq).
  assert (NoDup (dict_keys (sessions w1))) as Hd1.
  { subst w1. rewrite sweep_eq by done. cbn [snd sessions set_loop_tasks set_sessions].
    generalize (SessionManager.stale_ids w now). intros ids. revert Hd.
    generalize (sessions w). induction ids as [|k ids IH]; intros d Hd; [done |].
    cbn [foldl]. by apply IH, NoDup_dict_pop. }
  assert (∀ sid s, dict_get sid (sessions w1) = Some s →
                   SessionManager.is_stale (session_timeout w1) now s = false) as Hfresh.
  { intros sid s Hs. rewrite Ht. by apply (sweep_keeps w now sid s Hd). }
  split; [done |].
  assert (SessionManager.stale_ids w1 now = []) as Hnone.
  { destruct (SessionManager.stale_ids w1 now) as [|k ids] eqn:Hids; [done |].
    assert (k ∈ SessionManager.stale_ids w1 now) as Hk by (rewrite Hids; left).
    apply elem_of_stale_ids in Hk as (s & Hs & Hst); [| done].
    rewrite (Hfresh _ _ Hs) in Hst. done. }
  unfold SessionManager.cleanup_stale_sessions. rewrite Hnone. done.
Qed.
End keep_alive.

Lemma heartbeat_survives_sweep_witness :
  ∃ s, dict_get "abcd1234"
         (sessions (SessionManager.cleanup_stale_sessions 500000000
                      (SessionManager.heartbeat "abcd1234" 400000000 lobby).2).2) = Some s.
Proof.
  eassert (dict_get "abcd1234" (sessions lobby) = Some _) as Hs
    by (vm_compute; reflexivity).
  eexists.
  refine (heartbeat_survives_sweep lobby "abcd1234" _ 400000000 500000000 _ Hs _).
  - vm_compute. repeat constructor; set_solver.
  - vm_compute. discriminate.
Defined.

Lemma sweep_again_is_idle_witness :
  let w1 := (SessionManager.cleanup_stale_sessions 500000000 lobby).2 in
  SessionManager.cleanup_stale_sessions 500000000 w1 = (Ok tt, w1).
Proof.
  apply (sweep_again_is_idle lobby 500000000).
  vm_compute. repeat constructor; set_solver.
Defined.
